(** * MAO_Reporting: utils/report_utils.py

    A shallow embedding of the three procedures of [report_utils.py]
    ([get_api_auth_token], [query_order_api], [generate_pdf_report]) and
    the properties of its specification that were checked against it.

    Conventions of the embedding:
    - Airflow [Variable]s are a finite map from names to strings;
    - an exception is a value of [exn], a call that may raise returns an
      [outcome];
    - the network is an oracle that maps a request to a reply; every call
      made is appended to a log, so that "no call" and "exactly one call"
      are statements about that log;
    - [datetime] values are integers (microseconds on the local clock);
      the ISO-8601 codec of the [datetime] library is a parameter. *)

From Stdlib Require Import ZArith List Ascii String Bool Lia DecimalString.
From Corelib Require Import SpecFloat.
From stdpp Require Import base option list strings gmap.

Local Open Scope string_scope.
Local Open Scope list_scope.
Local Open Scope Z_scope.

(** ** Exceptions and outcomes *)

Inductive exn : Type :=
  | KeyError (key : string)
  | ValueError (msg : string)
  | ConnectionError
  | JSONDecodeError
  | AuthenticationFailed
  | ApiReturnedError (status : Z)
  | ZeroDivisionError.

Inductive outcome (A : Type) : Type :=
  | Return (a : A)
  | Raise (e : exn).
Arguments Return {A} a.
Arguments Raise {A} e.

(** ** HTTP *)

(** What [requests.post] gives back: an exception of the transport, or a
    response with its status code and, when the body is JSON, its decoded
    body. *)
Inductive http_reply (B : Type) : Type :=
  | TransportError
  | Response (status_code : Z) (json : option B).
Arguments TransportError {B}.
Arguments Response {B} status_code json.

(** ** Airflow Variables *)

Abbreviation variables := (gmap string string).

(** [Variable.get(k)] without a default raises [KeyError]. *)
Definition Variable_get (vars : variables) (k : string) : outcome string :=
  match vars !! k with
  | Some v => Return v
  | None => Raise (KeyError k)
  end.

(** Python truthiness of [Variable.get(k, default_var=None)]: the value
    is there and is not the empty string. *)
Definition truthy_str (o : option string) : bool :=
  match o with
  | Some s => negb (String.eqb s "")
  | None => false
  end.

(** ** TokenProvider: [get_api_auth_token] *)

Record auth_request : Type := mk_auth_request {
  auth_endpoint : string;
  client_id : string;
  client_secret : string;
  grant_type : string
}.

(** The fields of the auth response this module reads. *)
Record auth_data : Type := mk_auth_data {
  access_token : option string;
  expires_in : option Z   (* seconds *)
}.

Record token_run : Type := mk_token_run {
  token_result : outcome string;
  token_vars : variables;
  token_calls : list auth_request
}.

Section TokenProvider.

(** [datetime.fromisoformat]: [None] stands for its [ValueError]. *)
Variable fromisoformat : string -> option Z.
(** [datetime.isoformat]. *)
Variable isoformat : Z -> string.
(** The clock, read at line 30 (validity check) and at line 54 (after
    the response arrived). *)
Variable now_at_check now_at_issue : Z.
(** The auth endpoint. *)
Variable auth_server : auth_request -> http_reply auth_data.

(** [timedelta(seconds=n)] in microseconds. *)
Definition timedelta_seconds (n : Z) : Z := n * 1000000.

(** Lines 35-68: the refresh path.  The [try] block only logs and
    re-raises, so every exception raised inside reaches the caller. *)
Definition acquire_new_token (vars : variables) : token_run :=
  match Variable_get vars "order_api_base_url" with
  | Raise e => mk_token_run (Raise e) vars []
  | Return api_base_url =>
    match Variable_get vars "api_client_id" with
    | Raise e => mk_token_run (Raise e) vars []
    | Return cid =>
      match Variable_get vars "api_client_secret" with
      | Raise e => mk_token_run (Raise e) vars []
      | Return csecret =>
        let req := mk_auth_request (api_base_url +:+ "/auth/token")
                     cid csecret "client_credentials" in
        match auth_server req with
        | TransportError => mk_token_run (Raise ConnectionError) vars [req]
        | Response status body =>
          if status =? 200 then
            match body with
            | None => mk_token_run (Raise JSONDecodeError) vars [req]
            | Some auth =>
              match access_token auth with
              | None => mk_token_run (Raise (KeyError "access_token")) vars [req]
              | Some new_token =>
                let expires := default 3600 (expires_in auth) in
                let expiry_time := now_at_issue + timedelta_seconds expires in
                let vars1 := <["api_token" := new_token]> vars in
                let vars2 := <["api_token_expiry" := isoformat expiry_time]> vars1 in
                mk_token_run (Return new_token) vars2 [req]
              end
            end
          else mk_token_run (Raise AuthenticationFailed) vars [req]
        end
      end
    end
  end.

(** Lines 18-68. *)
Definition get_api_auth_token (vars : variables) : token_run :=
  let token := vars !! "api_token" in
  let token_expiry := vars !! "api_token_expiry" in
  if truthy_str token && truthy_str token_expiry then
    match fromisoformat (default "" token_expiry) with
    | None => mk_token_run (Raise (ValueError "Invalid isoformat string")) vars []
    | Some expiry_time =>
      if now_at_check <? expiry_time
      then mk_token_run (Return (default "" token)) vars []
      else acquire_new_token vars
    end
  else acquire_new_token vars.

End TokenProvider.

(** ** Data model *)

(** The values of an order record that the module tells apart: JSON
    null, integers, floats (IEEE-754 binary64, as [spec_float] with
    precision 53 and maximal exponent 1024) and text.  [NpInt64] is the
    numpy scalar that pandas hands back for a cell or a reduction of an
    int64 column: it is not an instance of Python's [int], while
    numpy's float64 is an instance of [float] and is a [PyFloat] here. *)
Inductive pyval : Type :=
  | PyNone
  | PyInt (z : Z)
  | PyFloat (f : spec_float)
  | PyStr (s : string)
  | NpInt64 (z : Z).

(** An OrderRecord: a Python dict, in insertion order. *)
Abbreviation record := (list (string * pyval)).

Record query_parameters : Type := mk_query_parameters {
  view_name : option string;
  sort_field : option string;
  order_type : option string
}.

Record summary_field : Type := mk_summary_field {
  field : string;
  operation : string;
  label : string
}.

(** ReportConfig: a dict; [None] is an absent key. *)
Record report_config : Type := mk_report_config {
  report_id : option string;
  description : option string;
  report_fields : option (list string);
  query_params : option query_parameters;
  summary_fields : option (list summary_field)
}.

(** [k in d] for a key of a dict whose keys are modelled as options. *)
Definition present {A} (o : option A) : bool :=
  match o with Some _ => true | None => false end.

(** A dict is truthy when it has a key. *)
Definition config_truthy (c : report_config) : bool :=
  present (report_id c) || present (description c)
  || present (report_fields c) || present (query_params c)
  || present (summary_fields c).

(** [report_config.get("query_parameters", {}).get(k)] followed by the
    truthiness test [if v:]: the value, when it is there and not empty. *)
Definition query_parameter (c : report_config)
    (k : query_parameters -> option string) : option string :=
  match query_params c with
  | Some qp => if truthy_str (k qp) then k qp else None
  | None => None
  end.

(** ** OrderQuery: [query_order_api] *)

Inductive filter_values : Type :=
  | DateFilter (date_from date_to : string)  (* with the full-day time window *)
  | TextValues (texts : list string).

Record search_filter : Type := mk_search_filter {
  f_ViewName : string;
  f_AttributeId : string;
  f_DataType : option string;
  f_FilterValues : filter_values
}.

(** SearchPayload.  The keys that the module never changes after the
    template ([SearchOptions], [SearchChains], [FilterExpression],
    [SortIndicator], [IsCommonUI], [ComponentShortName],
    [EnableMaxCountLimit], [ComponentName]) are left out. *)
Record payload : Type := mk_payload {
  ViewName : string;
  Filters : list search_filter;
  RequestAttributeIds : list string;
  Page : nat;
  TotalCount : Z;
  SortOrder : string;
  TimeZone : string;
  MaxCountLimit : Z;
  Size : nat;
  Sort : string
}.

Definition set_Page (p : payload) (n : nat) : payload :=
  mk_payload (ViewName p) (Filters p) (RequestAttributeIds p) n
    (TotalCount p) (SortOrder p) (TimeZone p) (MaxCountLimit p) (Size p) (Sort p).

(** Lines 90-134. *)
Definition default_payload (from_date to_date : string) : payload :=
  {| ViewName := "orderdetails";
     Filters := [ mk_search_filter "orderdetails" "OrderDate" None
                    (DateFilter from_date to_date) ];
     RequestAttributeIds := [];
     Page := 0%nat;
     TotalCount := -1;
     SortOrder := "desc";
     TimeZone := "America/Chicago";
     MaxCountLimit := 1000;
     Size := 100%nat;
     Sort := "OrderDate" |}.

(** [payload["Filters"][0]["ViewName"] = view_name]. *)
Definition set_first_filter_view (v : string) (fs : list search_filter)
    : list search_filter :=
  match fs with
  | f :: rest =>
      mk_search_filter v (f_AttributeId f) (f_DataType f) (f_FilterValues f) :: rest
  | [] => []
  end.

Definition dquote : string := String "034"%char EmptyString.

(** Lines 137-165. *)
Definition customize_payload (p : payload) (config : option report_config)
    : payload :=
  match config with
  | None => p
  | Some c =>
    if config_truthy c then
      let attrs := match report_fields c with
                   | Some fs => fs
                   | None => RequestAttributeIds p
                   end in
      let view := default (ViewName p) (query_parameter c view_name) in
      let filters1 := match query_parameter c view_name with
                      | Some v => set_first_filter_view v (Filters p)
                      | None => Filters p
                      end in
      let sort := default (Sort p) (query_parameter c sort_field) in
      let filters2 := match query_parameter c order_type with
                      | Some ot =>
                          filters1 ++
                          [ mk_search_filter view "TextSearch" (Some "text")
                              (TextValues [dquote +:+ ot +:+ dquote]) ]
                      | None => filters1
                      end in
      mk_payload view filters2 attrs (Page p) (TotalCount p) (SortOrder p)
        (TimeZone p) (MaxCountLimit p) (Size p) sort
    else p
  end.

(** The fields of the search response the module reads:
    [result_data.get("data")] and [result_data.get("totalCount", 0)]. *)
Record search_body : Type := mk_search_body {
  data : option (list record);
  totalCount : option Z
}.

Record search_request : Type := mk_search_request {
  search_endpoint : string;
  authorization : string;
  body : payload
}.

(** The state of the pagination loop when it is left: [None] while the
    loop is still running (the fuel of the model ran out). *)
Record page_run : Type := mk_page_run {
  page_result : option (outcome (list record));
  page_requests : list search_request
}.

Section OrderQuery.

(** The search endpoint: its reply to the [n]-th call of the run
    ([n] counts from 0), given the request. *)
Variable search_server : nat -> search_request -> http_reply search_body.

(** Lines 177-205, the [while True] loop.  [log] holds the requests
    made so far, oldest first. *)
Fixpoint search_pages (fuel : nat) (endpoint auth : string) (p : payload)
    (all_results : list record) (page : nat) (log : list search_request)
    : page_run :=
  match fuel with
  | O => mk_page_run None log
  | S fuel' =>
    let p1 := set_Page p page in
    let req := mk_search_request endpoint auth p1 in
    let log1 := log ++ [req] in
    match search_server (length log) req with
    | TransportError => mk_page_run (Some (Raise ConnectionError)) log1
    | Response status json =>
      if negb (status =? 200) then
        mk_page_run (Some (Raise (ApiReturnedError status))) log1
      else
        match json with
        | None => mk_page_run (Some (Raise JSONDecodeError)) log1
        | Some result_data =>
          match data result_data with
          | None | Some [] => mk_page_run (Some (Return all_results)) log1
          | Some d =>
            let all1 := all_results ++ d in
            if (default 0 (totalCount result_data) <=? Z.of_nat (length all1))
               || (length d <? Size p1)%nat
            then mk_page_run (Some (Return all1)) log1
            else search_pages fuel' endpoint auth p1 all1 (S page) log1
          end
        end
    end
  end.

End OrderQuery.

Record query_run : Type := mk_query_run {
  query_result : option (outcome (list record));
  query_vars : variables;
  query_auth_calls : list auth_request;
  query_requests : list search_request
}.

Section Query.

Variable fromisoformat : string -> option Z.
Variable isoformat : Z -> string.
Variable now_at_check now_at_issue : Z.
Variable auth_server : auth_request -> http_reply auth_data.
Variable search_server : nat -> search_request -> http_reply search_body.

(** Lines 70-212. *)
Definition query_order_api (fuel : nat) (vars : variables)
    (from_date to_date : string) (config : option report_config) : query_run :=
  match Variable_get vars "order_api_base_url" with
  | Raise e => mk_query_run (Some (Raise e)) vars [] []
  | Return api_base_url =>
    let endpoint := api_base_url +:+ "/order/search" in
    let t := get_api_auth_token fromisoformat isoformat
               now_at_check now_at_issue auth_server vars in
    match token_result t with
    | Raise e => mk_query_run (Some (Raise e)) (token_vars t) (token_calls t) []
    | Return token =>
      let p := customize_payload (default_payload from_date to_date) config in
      let r := search_pages search_server fuel endpoint ("Bearer " +:+ token)
                 p [] 0%nat [] in
      mk_query_run (page_result r) (token_vars t) (token_calls t) (page_requests r)
    end
  end.

End Query.

(** ** Python's conversions to text *)

Definition digits_of_N (n : N) : string :=
  NilZero.string_of_uint (N.to_uint n).

(** A comma after every third digit, on the digits in reverse. *)
Fixpoint group3 (rev_digits : list ascii) : list ascii :=
  match rev_digits with
  | a :: b :: c :: ((_ :: _) as rest) =>
      a :: b :: c :: ","%char :: group3 rest
  | l => l
  end.

Definition grouped_digits (n : N) : string :=
  string_of_list_ascii
    (rev (group3 (rev (list_ascii_of_string (digits_of_N n))))).

Definition sign_prefix (negative : bool) : string :=
  if negative then "-" else "".

(** [str(z)] for an integer. *)
Definition str_int (z : Z) : string :=
  sign_prefix (z <? 0) +:+ digits_of_N (Z.abs_N z).

(** [f"{z:,}"]. *)
Definition format_int_grouped (z : Z) : string :=
  sign_prefix (z <? 0) +:+ grouped_digits (Z.abs_N z).

(** The magnitude [m * 2^e] in hundredths, rounded half to even, as
    Python's correctly rounded ['f'] presentation does. *)
Definition hundredths (m : positive) (e : Z) : N :=
  let num := Z.pos m * 100 in
  if 0 <=? e then Z.to_N (num * 2 ^ e)
  else
    let den := 2 ^ (- e) in
    let q := num / den in
    let r := num mod den in
    Z.to_N (if (den <? 2 * r) || ((den =? 2 * r) && Z.odd q) then q + 1 else q).

Definition pad2 (n : N) : string :=
  if (n <? 10)%N then "0" +:+ digits_of_N n else digits_of_N n.

(** [f"{x:,.2f}"] for a float. *)
Definition format_float_2f (x : spec_float) : string :=
  match x with
  | S754_nan => "nan"
  | S754_infinity s => sign_prefix s +:+ "inf"
  | S754_zero s => sign_prefix s +:+ "0.00"
  | S754_finite s m e =>
      let h := hundredths m e in
      sign_prefix s +:+ grouped_digits (h / 100) +:+ "." +:+ pad2 (h mod 100)
  end.

Definition float_of_Z (z : Z) : spec_float := binary_normalize 53 1024 z 0 false.

Definition NaN : spec_float := S754_nan.

(** The behaviour of the libraries below the module that the embedding
    does not spell out. *)
Class Libraries : Type := {
  (** [repr] of a finite float other than zero (shortest digits that
      read back as the same float). *)
  float_repr : spec_float -> string;
  (** A pandas reduction ([sum], [mean], [min], [max]) over a column of
      dtype object; [None] when it raises. *)
  object_reduce : string -> list pyval -> option pyval;
  (** [value_counts().head(10)] of a column, plotted as a bar chart
      with the given title and x label and saved as PNG; [None] when
      any of this raises. *)
  plot_bar : string -> string -> list pyval -> option string
}.

Section Formatting.
Context `{Libraries}.

Definition str_float (x : spec_float) : string :=
  match x with
  | S754_nan => "nan"
  | S754_infinity s => sign_prefix s +:+ "inf"
  | S754_zero s => sign_prefix s +:+ "0.0"
  | S754_finite _ _ _ => float_repr x
  end.

(** [str(value)]. *)
Definition py_str (v : pyval) : string :=
  match v with
  | PyNone => "None"
  | PyInt z => str_int z
  | PyFloat x => str_float x
  | PyStr s => s
  | NpInt64 z => str_int z
  end.

(** Lines 390-396 (and 292-295): [isinstance(value, (int, float))]
    decides between the grouped formats and [str]. *)
Definition format_value (v : pyval) : string :=
  match v with
  | PyInt z => format_int_grouped z
  | PyFloat x => format_float_2f x
  | _ => py_str v
  end.

(** [f"{value:,.2f}"] for any value: integers are converted to float
    first, text and [None] raise. *)
Definition format_2f (v : pyval) : option string :=
  match v with
  | PyFloat x => Some (format_float_2f x)
  | PyInt z | NpInt64 z =>
      match float_of_Z z with
      | S754_infinity _ => None          (* OverflowError *)
      | x => Some (format_float_2f x)
      end
  | PyStr _ | PyNone => None
  end.

End Formatting.

(** ** pandas: [DataFrame(results)], reductions and [iterrows] *)

(** A column with its dtype. *)
Inductive series : Type :=
  | IntSeries (values : list Z)             (* int64 *)
  | FloatSeries (values : list spec_float)  (* float64 *)
  | ObjectSeries (values : list pyval).     (* object *)

Record DataFrame : Type := mk_DataFrame {
  df_len : nat;
  df_columns : list (string * series)
}.

(** [d.get(k)] on a dict. *)
Fixpoint dict_get (r : record) (k : string) : option pyval :=
  match r with
  | [] => None
  | (k', v) :: rest => if String.eqb k k' then Some v else dict_get rest k
  end.

Definition mem_str (k : string) (l : list string) : bool :=
  existsb (String.eqb k) l.

(** The keys of all records, in the order of their first appearance. *)
Fixpoint add_new_keys (seen ks : list string) : list string :=
  match ks with
  | [] => seen
  | k :: ks' => add_new_keys (if mem_str k seen then seen else seen ++ [k]) ks'
  end.

Definition frame_keys (results : list record) : list string :=
  fold_left (fun seen r => add_new_keys seen (map fst r)) results [].

Definition in_int64 (z : Z) : bool := (- 2 ^ 63 <=? z) && (z <? 2 ^ 63).

Definition wrap_int64 (z : Z) : Z := (z + 2 ^ 63) mod 2 ^ 64 - 2 ^ 63.

Definition is_int64 (v : pyval) : bool :=
  match v with PyInt z => in_int64 z | _ => false end.

Definition is_number (v : pyval) : bool :=
  match v with PyInt z => in_int64 z | PyFloat _ => true | _ => false end.

Definition is_number_or_null (v : pyval) : bool :=
  match v with PyNone => true | _ => is_number v end.

Definition int_of (v : pyval) : Z :=
  match v with PyInt z => z | _ => 0 end.

Definition float_of (v : pyval) : spec_float :=
  match v with
  | PyInt z => float_of_Z z
  | PyFloat x => x
  | _ => NaN
  end.

(** The dtype pandas infers for the cells of a column: int64 when all
    are integers, float64 when all are numbers or null and one is a
    number (null becomes NaN), object otherwise.  Integers outside the
    int64 range are kept as objects (pandas would try uint64 first,
    which the model does not follow). *)
Definition infer_series (cells : list pyval) : series :=
  if forallb is_int64 cells then IntSeries (map int_of cells)
  else if forallb is_number_or_null cells && existsb is_number cells
       then FloatSeries (map float_of cells)
       else ObjectSeries cells.

(** Line 255, [pd.DataFrame(results)]: a record that lacks a key of
    another record gets NaN in that column. *)
Definition make_DataFrame (results : list record) : DataFrame :=
  mk_DataFrame (length results)
    (map (fun k =>
            (k, infer_series
                  (map (fun r => default (PyFloat NaN) (dict_get r k)) results)))
         (frame_keys results)).

(** [df.columns] and [field in df.columns]. *)
Definition columns (df : DataFrame) : list string := map fst (df_columns df).

Definition in_columns (fld : string) (df : DataFrame) : bool :=
  mem_str fld (columns df).

(** [df[field]]. *)
Fixpoint find_column (cols : list (string * series)) (fld : string)
    : option series :=
  match cols with
  | [] => None
  | (k, s) :: rest => if String.eqb fld k then Some s else find_column rest fld
  end.

Definition is_nan (x : spec_float) : bool :=
  match x with S754_nan => true | _ => false end.

Definition dropna (l : list spec_float) : list spec_float :=
  List.filter (fun x => negb (is_nan x)) l.

(** Floats are added one after the other, from 0.0 (numpy adds longer
    arrays pairwise, which can round differently). *)
Definition float_sum (l : list spec_float) : spec_float :=
  fold_left (SFadd 53 1024) l (S754_zero false).

Definition float_least (lt : spec_float -> spec_float -> bool)
    (l : list spec_float) : spec_float :=
  match dropna l with
  | [] => NaN
  | x :: xs => fold_left (fun a b => if lt b a then b else a) xs x
  end.

Definition int_least (pick : Z -> Z -> Z) (l : list Z) : Z :=
  match l with
  | [] => 0
  | x :: xs => fold_left pick xs x
  end.

Section Reductions.
Context `{Libraries}.

(** [Series.sum()], NaN skipped; [None] when it raises. *)
Definition series_sum (s : series) : option pyval :=
  match s with
  | IntSeries l => Some (NpInt64 (wrap_int64 (fold_left Z.add l 0)))
  | FloatSeries l => Some (PyFloat (float_sum (dropna l)))
  | ObjectSeries l => object_reduce "sum" l
  end.

(** [Series.mean()]. *)
Definition series_mean (s : series) : option pyval :=
  match s with
  | IntSeries l =>
      Some (PyFloat (SFdiv 53 1024 (float_sum (map float_of_Z l))
                       (float_of_Z (Z.of_nat (length l)))))
  | FloatSeries l =>
      Some (PyFloat (SFdiv 53 1024 (float_sum (dropna l))
                       (float_of_Z (Z.of_nat (length (dropna l))))))
  | ObjectSeries l => object_reduce "mean" l
  end.

(** [Series.min()]. *)
Definition series_min (s : series) : option pyval :=
  match s with
  | IntSeries l => Some (NpInt64 (int_least Z.min l))
  | FloatSeries l => Some (PyFloat (float_least SFltb l))
  | ObjectSeries l => object_reduce "min" l
  end.

(** [Series.max()]. *)
Definition series_max (s : series) : option pyval :=
  match s with
  | IntSeries l => Some (NpInt64 (int_least Z.max l))
  | FloatSeries l => Some (PyFloat (float_least (fun b a => SFltb a b) l))
  | ObjectSeries l => object_reduce "max" l
  end.

End Reductions.

(** The dtype of [df.values], which [iterrows] cuts into rows: the
    common dtype of the columns. *)
Inductive values_dtype : Type := AllInt64 | AllFloat64 | Mixed.

Definition is_int_series (s : series) : bool :=
  match s with IntSeries _ => true | _ => false end.

Definition is_numeric_series (s : series) : bool :=
  match s with ObjectSeries _ => false | _ => true end.

Definition frame_values_dtype (df : DataFrame) : values_dtype :=
  if forallb (fun c => is_int_series (snd c)) (df_columns df) then AllInt64
  else if forallb (fun c => is_numeric_series (snd c)) (df_columns df)
       then AllFloat64
       else Mixed.

(** The cell of row [i] in a column, as the row Series of [iterrows]
    holds it: a numpy scalar when the whole frame is numeric, the
    Python object otherwise. *)
Definition row_cell (dt : values_dtype) (s : series) (i : nat) : pyval :=
  match s with
  | IntSeries l =>
      let z := nth i l 0 in
      match dt with
      | AllInt64 => NpInt64 z
      | AllFloat64 => PyFloat (float_of_Z z)
      | Mixed => PyInt z
      end
  | FloatSeries l => PyFloat (nth i l NaN)
  | ObjectSeries l => nth i l PyNone
  end.

(** [row.get(field, "")] for row [i] of [df.iterrows()]. *)
Definition row_get (df : DataFrame) (i : nat) (fld : string) : pyval :=
  match find_column (df_columns df) fld with
  | Some s => row_cell (frame_values_dtype df) s i
  | None => PyStr ""
  end.

(** ** ReportRenderer: [generate_pdf_report] *)

(** The date component of a [datetime]; [strftime] with [%Y%m%d] reads
    nothing else.  A [datetime] only holds the dates of [valid_date]. *)
Record calendar_date : Type := mk_date {
  year : N;
  month : N;
  day : N
}.

Definition leap_year (y : N) : bool :=
  ((y mod 4 =? 0) && negb (y mod 100 =? 0) || (y mod 400 =? 0))%N.

Definition days_in_month (y m : N) : N :=
  if (m =? 2)%N then (if leap_year y then 29 else 28)%N
  else if ((m =? 4) || (m =? 6) || (m =? 9) || (m =? 11))%N then 30%N
  else 31%N.

(** The dates [datetime] can hold: years 1 to 9999 of the proleptic
    Gregorian calendar. *)
Definition valid_date (d : calendar_date) : bool :=
  ((1 <=? year d) && (year d <=? 9999)
   && (1 <=? month d) && (month d <=? 12)
   && (1 <=? day d) && (day d <=? days_in_month (year d) (month d)))%N.

Fixpoint zeros (n : nat) : string :=
  match n with
  | O => ""
  | S n' => "0" +:+ zeros n'
  end.

(** Digits padded with zeros on the left up to [width]. *)
Definition zero_pad (width : nat) (digits : string) : string :=
  zeros (width - String.length digits) +:+ digits.

(** [d.strftime('%Y%m%d')] of a valid date.  [%Y] is the year in
    decimal, as the C library of a Linux host prints it: four digits
    from the year 1000 on, fewer before (other C libraries pad those
    with zeros); [%m] and [%d] always have two digits. *)
Definition strftime_compact (d : calendar_date) : string :=
  digits_of_N (year d) +:+ zero_pad 2 (digits_of_N (month d))
  +:+ zero_pad 2 (digits_of_N (day d)).

(** [d.strftime('%Y-%m-%d')]. *)
Definition strftime_dashed (d : calendar_date) : string :=
  digits_of_N (year d) +:+ "-" +:+ zero_pad 2 (digits_of_N (month d))
  +:+ "-" +:+ zero_pad 2 (digits_of_N (day d)).

Inductive paragraph_style : Type := Title | Normal | Heading2 | Heading3.

Inductive page_size : Type := Letter | LandscapeLetter.

(** The flowables handed to [doc.build]. *)
Inductive flowable : Type :=
  | Paragraph (text : string) (style : paragraph_style)
  | Spacer (width height : Z)
  | SummaryTable (rows : list (list string))
  | Image (png : string)
  | DataTable (rows : list (list string)) (colWidths : list Z)
      (shaded_rows : list nat).

Record document : Type := mk_document {
  pagesize : page_size;
  elements : list flowable
}.

Abbreviation filesystem := (gmap string document).

Record render_run : Type := mk_render_run {
  render_result : outcome string;
  render_fs : filesystem
}.

Definition truthy_config (config : option report_config) : option report_config :=
  match config with
  | Some c => if config_truthy c then Some c else None
  | None => None
  end.

(** Lines 231-232. *)
Definition pdf_path (config : option report_config) (d : calendar_date) : string :=
  let rid := match truthy_config config with
             | Some c => default "report" (report_id c)
             | None => "report"
             end in
  "/tmp/" +:+ rid +:+ "_" +:+ strftime_compact d +:+ ".pdf".

Definition title_line (report_title : string) (d : calendar_date) : flowable :=
  Paragraph (report_title +:+ " - " +:+ strftime_dashed d) Title.

Section Renderer.
Context `{Libraries}.

(** Lines 288-313: the text of one summary value, [None] when the
    field is skipped ([continue], also from the [except] branch). *)
Definition summary_value (df : DataFrame) (s : series) (op : string)
    : option string :=
  if String.eqb op "sum" then
    match series_sum s with
    | Some v => Some (format_value v)
    | None => None
    end
  else if String.eqb op "avg" || String.eqb op "mean" then
    match series_mean s with
    | Some v => format_2f v
    | None => None
    end
  else if String.eqb op "count" then
    Some (format_int_grouped (Z.of_nat (df_len df)))
  else if String.eqb op "min" then
    match series_min s with
    | Some v => Some (py_str v)
    | None => None
    end
  else if String.eqb op "max" then
    match series_max s with
    | Some v => Some (py_str v)
    | None => None
    end
  else None.

(** Lines 279-319: one pass of the loop over [summary_fields]. *)
Definition summary_row (df : DataFrame) (sf : summary_field)
    : option (list string) :=
  match find_column (df_columns df) (field sf) with
  | None => None
  | Some s =>
      match summary_value df s (operation sf) with
      | Some value_str => Some [label sf; value_str]
      | None => None
      end
  end.

Definition summary_data (df : DataFrame) (sfs : list summary_field)
    : list (list string) :=
  omap (summary_row df) sfs.

Definition series_cells (s : series) : list pyval :=
  match s with
  | IntSeries l => map NpInt64 l
  | FloatSeries l => map PyFloat l
  | ObjectSeries l => l
  end.

(** Lines 336-373: the flowables of one [group] chart. *)
Definition chart_elements (df : DataFrame) (sf : summary_field)
    : list flowable :=
  if String.eqb (operation sf) "group" then
    match find_column (df_columns df) (field sf) with
    | None => []
    | Some s =>
        match plot_bar (label sf) (field sf) (series_cells s) with
        | Some png =>
            [Paragraph (label sf) Heading3; Spacer 1 6; Image png; Spacer 1 12]
        | None => []
        end
    end
  else [].

(** Lines 273-373. *)
Definition summary_section (df : DataFrame) (config : option report_config)
    : list flowable :=
  match truthy_config config with
  | Some c =>
      match summary_fields c with
      | Some sfs =>
          [Paragraph "Summary" Heading2]
          ++ (match summary_data df sfs with
              | [] => []
              | rows => [SummaryTable rows; Spacer 1 24]
              end)
          ++ concat (map (chart_elements df) sfs)
      | None => []
      end
  | None => []
  end.

(** Lines 386-398. *)
Definition table_row (df : DataFrame) (table_fields : list string) (i : nat)
    : list string :=
  map (fun fld => format_value (row_get df i fld)) table_fields.

(** Lines 383-398. *)
Definition table_data (df : DataFrame) (table_fields : list string)
    : list (list string) :=
  table_fields :: map (table_row df table_fields) (seq 0 (df_len df)).

(** Lines 421-423. *)
Definition zebra (n_rows : nat) : list nat :=
  List.filter Nat.even (seq 1 (n_rows - 1)).

(** Line 401; [600 // 0] raises. *)
Definition col_widths (n : nat) : outcome (list Z) :=
  if (n =? 0)%nat then Raise ZeroDivisionError
  else Return (repeat (Z.max 100 (Z.min 200 (600 / Z.of_nat n))) n).

Definition description_section (config : option report_config) : list flowable :=
  match truthy_config config with
  | Some c =>
      if truthy_str (description c)
      then [Paragraph (default "" (description c)) Normal; Spacer 1 12]
      else []
  | None => []
  end.

(** Lines 214-432.  [now] is what [datetime.now()] returns, [fs] the
    files under the output directory before the call.

    The embedding follows the module's own code.  reportlab is taken
    to accept what it is given: the exceptions that [Paragraph] raises
    on malformed markup in the title or the description (lines 241,
    264, 269) and that [doc.build] raises when the path cannot be
    written (lines 244, 429) are not modelled.  So what is proved of a
    rendering that returns holds of the code, while a [Return] of the
    embedding alone does not show that the code returns. *)
Definition generate_pdf_report (now : calendar_date) (fs : filesystem)
    (report_title : string) (results : list record)
    (config : option report_config) (execution_date : option calendar_date)
    : render_run :=
  let d := default now execution_date in
  let pdf_file := pdf_path config d in
  match results with
  | [] =>
      let doc := mk_document Letter
                   [ title_line report_title d; Spacer 1 12;
                     Paragraph "No records found for the specified period." Normal ] in
      mk_render_run (Return pdf_file) (<[pdf_file := doc]> fs)
  | first :: _ =>
      let fields := match truthy_config config with
                    | Some c => default (map fst first) (report_fields c)
                    | None => map fst first
                    end in
      let df := make_DataFrame results in
      let head := [title_line report_title d; Spacer 1 12]
                  ++ description_section config
                  ++ summary_section df config
                  ++ [Paragraph "Detailed Data" Heading2] in
      let table_fields := List.filter (fun fld => in_columns fld df) fields in
      let rows := table_data df table_fields in
      match col_widths (length table_fields) with
      | Raise e => mk_render_run (Raise e) fs
      | Return widths =>
          let doc := mk_document LandscapeLetter
                       (head ++ [DataTable rows widths (zebra (length rows))]) in
          mk_render_run (Return pdf_file) (<[pdf_file := doc]> fs)
      end
  end.

End Renderer.

(** ** The specification's vocabulary *)

(** The persisted Credential is absent: the token or the expiry is
    missing (or empty, which the module does not tell from missing). *)
Definition credential_absent (vars : variables) : Prop :=
  truthy_str (vars !! "api_token") = false
  \/ truthy_str (vars !! "api_token_expiry") = false.

(** The persisted Credential is there and holds token [tok] and expiry
    text [expiry]. *)
Definition credential_cached (vars : variables) (tok expiry : string) : Prop :=
  vars !! "api_token" = Some tok /\ tok <> ""
  /\ vars !! "api_token_expiry" = Some expiry /\ expiry <> "".

(** The persisted Credential is there but its expiry is not after
    the current time [now]. *)
Definition credential_expired (fromisoformat : string -> option Z) (now : Z)
    (vars : variables) : Prop :=
  exists tok expiry t,
    credential_cached vars tok expiry
    /\ fromisoformat expiry = Some t /\ t <= now.

(** The process-wide configuration holds the base URL and the client
    credentials. *)
Definition configured (vars : variables) (url cid secret : string) : Prop :=
  vars !! "order_api_base_url" = Some url
  /\ vars !! "api_client_id" = Some cid
  /\ vars !! "api_client_secret" = Some secret.

(** Pagination, in the words of the specification.  [p] is the
    payload the loop starts from, [endpoint] and [auth] the URL and the
    bearer header of every request. *)
Section PaginationVocabulary.
Variable search_server : nat -> search_request -> http_reply search_body.
Variables (endpoint auth : string) (p : payload).

(** The request for page [n], and the reply it gets when it is the
    [n]-th request of the run. *)
Definition page_request (n : nat) : search_request :=
  mk_search_request endpoint auth (set_Page p n).

Definition page_reply (n : nat) : http_reply search_body :=
  search_server n (page_request n).

(** The requests for the pages 0 .. [k-1], in this order. *)
Definition requests_upto (k : nat) : list search_request :=
  map page_request (seq 0 k).

(** The records that page [n] contributes. *)
Definition page_records (n : nat) : list record :=
  match page_reply n with
  | Response status (Some b) =>
      if status =? 200 then default [] (data b) else []
  | _ => []
  end.

(** The records of the pages before page [n]. *)
Definition accumulated (n : nat) : list record :=
  concat (map page_records (seq 0 n)).

(** The page's record list is absent or empty. *)
Definition empty_page (b : search_body) : bool :=
  match data b with
  | None | Some [] => true
  | Some (_ :: _) => false
  end.

(** After appending the page's records, the accumulated count is at
    least the server-reported total. *)
Definition count_reached (total : Z) (n : nat) (b : search_body) : bool :=
  total <=? Z.of_nat (length (accumulated n) + length (default [] (data b))).

(** The page holds fewer records than the requested page size. *)
Definition short_page (b : search_body) : bool :=
  (length (default [] (data b)) <? 100)%nat.

Definition stop_condition (n : nat) (b : search_body) : bool :=
  empty_page b || count_reached (default 0 (totalCount b)) n b || short_page b.

(** Page [n] is answered with 200 and a stop condition holds. *)
Definition stops_at (n : nat) : Prop :=
  exists b, page_reply n = Response 200 (Some b) /\ stop_condition n b = true.

(** Page [n] is answered with 200 and no stop condition holds. *)
Definition continues_at (n : nat) : Prop :=
  exists b, page_reply n = Response 200 (Some b) /\ stop_condition n b = false.

End PaginationVocabulary.

(** The page indexes of the requests of a run, oldest first. *)
Definition pages_requested (r : query_run) : list nat :=
  map (fun req => Page (body req)) (query_requests r).

(** The edge case of a missing total count, as the specification states
    it: a full page whose response lacks [totalCount] is followed by a
    request for the next page. *)
Definition full_page_without_total_continues : Prop :=
  forall fromisoformat isoformat now_at_check now_at_issue auth_server
         search_server (vars : variables) url token from_date to_date config
         n b fuel,
    vars !! "order_api_base_url" = Some url ->
    token_result (get_api_auth_token fromisoformat isoformat now_at_check
                    now_at_issue auth_server vars) = Return token ->
    let p := customize_payload (default_payload from_date to_date) config in
    let endpoint := url +:+ "/order/search" in
    let auth := "Bearer " +:+ token in
    (forall i, (i < n)%nat -> continues_at search_server endpoint auth p i) ->
    page_reply search_server endpoint auth p n = Response 200 (Some b) ->
    totalCount b = None ->
    length (default [] (data b)) = 100%nat ->
    (S n < fuel)%nat ->
    In (S n)
       (pages_requested
          (query_order_api fromisoformat isoformat now_at_check now_at_issue
             auth_server search_server fuel vars from_date to_date config)).

(** The rows of the Detailed Data table of a document, header first. *)
Definition detailed_rows (doc : document) : option (list (list string)) :=
  match last (elements doc) with
  | Some (DataTable rows _ _) => Some rows
  | _ => None
  end.

(** The heading that opens the Summary section. *)
Definition summary_heading : flowable := Paragraph "Summary" Heading2.

(** The columns of the Detailed Data table (line 380). *)
Definition table_fields_of (df : DataFrame) (fields : list string) : list string :=
  List.filter (fun fld => in_columns fld df) fields.

(** The configured fields, or the keys of the first record (lines 248-252). *)
Definition report_fields_of (config : option report_config) (first : record)
    : list string :=
  match truthy_config config with
  | Some c => default (map fst first) (report_fields c)
  | None => map fst first
  end.

Section SummaryVocabulary.
Context `{Libraries}.

(** The aggregate of a column for an operation of the summary table. *)
Definition aggregate (df : DataFrame) (s : series) (op : string) : option pyval :=
  if String.eqb op "sum" then series_sum s
  else if String.eqb op "avg" || String.eqb op "mean" then series_mean s
  else if String.eqb op "count" then Some (PyInt (Z.of_nat (df_len df)))
  else if String.eqb op "min" then series_min s
  else if String.eqb op "max" then series_max s
  else None.

(** The format the specification gives to a summary value: thousands
    separators, two decimals for a float, the plain string for what is
    not a number. *)
Definition spec_summary_format (v : pyval) : string :=
  match v with
  | PyInt z | NpInt64 z => format_int_grouped z
  | PyFloat x => format_float_2f x
  | PyStr _ | PyNone => py_str v
  end.

End SummaryVocabulary.

(** The formatting of summary values, as the specification states it:
    the same for sum, avg, mean, count, min and max. *)
Definition summary_values_formatted_alike : Prop :=
  forall (L : Libraries) df s op v,
    In op ["sum"; "avg"; "mean"; "count"; "min"; "max"] ->
    aggregate df s op = Some v ->
    summary_value df s op = Some (spec_summary_format v).

(** The Summary section, as the specification states it: present
    exactly when [summary_fields] is a non-empty sequence. *)
Definition summary_iff_fields_nonempty : Prop :=
  forall (L : Libraries) now fs title results config execution_date path doc,
    results <> [] ->
    render_result (generate_pdf_report now fs title results config execution_date)
    = Return path ->
    render_fs (generate_pdf_report now fs title results config execution_date)
      !! path = Some doc ->
    (In summary_heading (elements doc)
     <-> exists c sfs, config = Some c /\ summary_fields c = Some sfs /\ sfs <> []).

(** What of a config decides the file name and the columns of the
    Detailed Data table: [report_id] and [report_fields] (of a config
    that is not empty). *)
Definition layout_of (config : option report_config)
    : option string * option (list string) :=
  match truthy_config config with
  | Some c => (report_id c, report_fields c)
  | None => (None, None)
  end.

(** The [width] last decimal digits of [n], most significant first:
    the YYYY, MM and DD of a file name. *)
Fixpoint decimal (width : nat) (n : N) : string :=
  match width with
  | O => ""
  | S w => decimal w (n / 10) +:+ String (ascii_of_N (48 + n mod 10)) EmptyString
  end.

(** The width line 401 gives to each of [n] columns. *)
Definition column_width (n : nat) : Z :=
  Z.max 100 (Z.min 200 (600 / Z.of_nat n)).

(** The operations that yield a row of the summary table. *)
Definition summary_operations : list string :=
  ["sum"; "avg"; "mean"; "count"; "min"; "max"].

(** ** Sample environments *)

(** A codec that knows one timestamp, 2026-01-01T00:00:00, as
    microseconds since 1970. *)
Definition sample_fromisoformat (s : string) : option Z :=
  if String.eqb s "2026-01-01T00:00:00" then Some 1767225600000000 else None.

Definition sample_isoformat (t : Z) : string :=
  if t =? 1767225600000000 then "2026-01-01T00:00:00"
  else "epoch+" +:+ str_int t +:+ "us".

Definition sample_settings : variables :=
  <["order_api_base_url" := "https://mao.example"]>
    (<["api_client_id" := "reporting"]>
       (<["api_client_secret" := "s3cret"]> ∅)).

Definition sample_cached (expiry : string) : variables :=
  <["api_token" := "tok-1"]> (<["api_token_expiry" := expiry]> sample_settings).

Definition sample_auth_server (reply : http_reply auth_data)
    : auth_request -> http_reply auth_data :=
  fun _ => reply.

Definition sample_order (n : Z) : record :=
  [("OrderId", PyInt n); ("Status", PyStr "Released")].

Definition sample_page (size : nat) (total : option Z) : search_body :=
  mk_search_body (Some (repeat (sample_order 7) size)) total.

(** A server that answers page [i] with the [i]-th body of [pages] and
    with 404 beyond them. *)
Definition sample_search_server (pages : list search_body)
    : nat -> search_request -> http_reply search_body :=
  fun _ req =>
    match pages !! Page (body req) with
    | Some b => Response 200 (Some b)
    | None => Response 404 None
    end.

(** A query with a valid cached token, so that the auth endpoint is not
    needed. *)
Definition sample_query (pages : list search_body) (fuel : nat) : query_run :=
  query_order_api sample_fromisoformat sample_isoformat
    1767225599000000 1767225599500000 (sample_auth_server TransportError)
    (sample_search_server pages) fuel (sample_cached "2026-01-01T00:00:00")
    "01 Nov 2026" "04 Nov 2026" None.

Definition sample_libraries : Libraries :=
  {| float_repr := fun _ => "1.5";
     object_reduce := fun _ _ => None;
     plot_bar := fun _ _ _ => None |}.

Definition sample_date : calendar_date := mk_date 2026 11 4.

(** The records of the specification's summary example, with integer
    and with float amounts, and with amounts from a thousand on. *)
Definition amounts (vs : list pyval) : list record :=
  map (fun v => [("amt", v)]) vs.

Definition int_amounts : list record := amounts [PyInt 10; PyInt 20; PyInt 30].

Definition float_amounts : list record :=
  amounts [PyFloat (float_of_Z 10); PyFloat (float_of_Z 20); PyFloat (float_of_Z 30)].

Definition large_amounts : list record :=
  amounts [PyInt 1000; PyInt 2000; PyInt 3000].

(** Two orders, the second without a quantity. *)
Definition uneven_orders : list record :=
  [ [("id", PyStr "A1"); ("qty", PyInt 5)]; [("id", PyStr "B2")] ].

Definition sample_config (fields : option (list string))
    (summary : option (list summary_field)) : report_config :=
  mk_report_config (Some "daily") None fields None summary.

(** Libraries whose plotting succeeds, with a stand-in for the PNG. *)
Definition sample_plotting : Libraries :=
  {| float_repr := fun _ => "1.5";
     object_reduce := fun _ _ => None;
     plot_bar := fun _ _ _ => Some "PNG" |}.

Definition sample_summary : list summary_field :=
  [ mk_summary_field "amt" "sum" "Total";
    mk_summary_field "amt" "median" "Median";
    mk_summary_field "amt" "group" "By amount";
    mk_summary_field "tax" "sum" "Tax" ].

(** * Properties *)

(** ** TokenProvider *)

Lemma truthy_str_Some (s : string) : s <> "" -> truthy_str (Some s) = true.
Proof.
  intros Hs. simpl. apply negb_true_iff. now apply String.eqb_neq.
Qed.

Section TokenProperties.
Variable fromisoformat : string -> option Z.
Variable isoformat : Z -> string.
Variable now_at_check now_at_issue : Z.
Variable auth_server : auth_request -> http_reply auth_data.

Local Abbreviation get_token :=
  (get_api_auth_token fromisoformat isoformat now_at_check now_at_issue auth_server).
Local Abbreviation acquire :=
  (acquire_new_token isoformat now_at_issue auth_server).

Lemma cached_branch (vars : variables) tok expiry :
  credential_cached vars tok expiry ->
  get_token vars =
    match fromisoformat expiry with
    | None => mk_token_run (Raise (ValueError "Invalid isoformat string")) vars []
    | Some t => if now_at_check <? t
                then mk_token_run (Return tok) vars []
                else acquire vars
    end.
Proof.
  intros (Htok & Hne & Hexp & Hne').
  unfold get_api_auth_token. rewrite Htok, Hexp.
  rewrite (truthy_str_Some _ Hne), (truthy_str_Some _ Hne'). reflexivity.
Qed.

(** C7: a cached Credential whose expiry lies strictly after the
    current time is returned as it is: the result is the cached token,
    no request is made and the persisted state is unchanged. *)
Theorem get_token_reuses_cached (vars : variables) tok expiry t :
  credential_cached vars tok expiry ->
  fromisoformat expiry = Some t ->
  now_at_check < t ->
  token_result (get_token vars) = Return tok
  /\ token_calls (get_token vars) = []
  /\ token_vars (get_token vars) = vars.
Proof.
  intros Hc Hp Hlt. rewrite (cached_branch _ _ _ Hc), Hp.
  apply Z.ltb_lt in Hlt. rewrite Hlt. simpl. auto.
Qed.

(** C10: a cached Credential whose expiry text does not parse makes
    [get_api_auth_token] raise the parser's [ValueError]: the refresh
    path is not entered, no request is made, nothing is persisted. *)
Theorem get_token_unparsable_expiry (vars : variables) tok expiry :
  credential_cached vars tok expiry ->
  fromisoformat expiry = None ->
  (exists msg, token_result (get_token vars) = Raise (ValueError msg))
  /\ token_calls (get_token vars) = []
  /\ token_vars (get_token vars) = vars.
Proof.
  intros Hc Hp. rewrite (cached_branch _ _ _ Hc), Hp. simpl. eauto.
Qed.

Lemma stale_credential_acquires (vars : variables) :
  credential_absent vars \/ credential_expired fromisoformat now_at_check vars ->
  get_token vars = acquire vars.
Proof.
  intros [[Ha | Ha] | (tok & expiry & t & Hc & Hp & Hle)].
  - unfold get_api_auth_token. now rewrite Ha.
  - unfold get_api_auth_token. rewrite Ha. now rewrite andb_false_r.
  - rewrite (cached_branch _ _ _ Hc), Hp.
    apply Z.ltb_ge in Hle. now rewrite Hle.
Qed.

(** C8: with an absent or expired Credential (and the endpoint
    configured) [get_api_auth_token] sends exactly one request to the
    auth endpoint.  On a 200 response carrying [access_token] it
    returns that token and persists it together with the expiry
    [now + expires_in] (3600 s when [expires_in] is absent),
    overwriting the previous values; on another status or a transport
    error it raises, having made that single request, and persists
    nothing. *)
Theorem get_token_refreshes (vars : variables) url cid secret :
  credential_absent vars \/ credential_expired fromisoformat now_at_check vars ->
  configured vars url cid secret ->
  let req := mk_auth_request (url +:+ "/auth/token") cid secret
               "client_credentials" in
  let r := get_token vars in
  token_calls r = [req]
  /\ (forall auth tok,
        auth_server req = Response 200 (Some auth) ->
        access_token auth = Some tok ->
        let expiry :=
          isoformat (now_at_issue + 1000000 * default 3600 (expires_in auth)) in
        token_result r = Return tok
        /\ token_vars r = <["api_token_expiry" := expiry]> (<["api_token" := tok]> vars)
        /\ token_vars r !! "api_token" = Some tok
        /\ token_vars r !! "api_token_expiry" = Some expiry)
  /\ (forall status body,
        auth_server req = Response status body -> status <> 200 ->
        token_result r = Raise AuthenticationFailed /\ token_vars r = vars)
  /\ (auth_server req = TransportError ->
        token_result r = Raise ConnectionError /\ token_vars r = vars).
Proof.
  intros Hstale (Hurl & Hcid & Hsec) req r.
  subst r. rewrite (stale_credential_acquires _ Hstale).
  unfold acquire_new_token, Variable_get. rewrite Hurl, Hcid, Hsec.
  fold req. destruct (auth_server req) as [| status body] eqn:Hreply.
  { simpl. repeat split; intros; simplify_eq; done. }
  destruct (status =? 200) eqn:Hst.
  2:{ apply Z.eqb_neq in Hst. simpl.
      repeat split; intros; simplify_eq; done. }
  apply Z.eqb_eq in Hst. subst status.
  destruct body as [auth |].
  2:{ simpl. repeat split; intros; simplify_eq; done. }
  destruct (access_token auth) as [tok |] eqn:Htok.
  2:{ simpl. repeat split; intros; simplify_eq; done. }
  simpl. split; [done |]. split; [| split; intros; simplify_eq; done].
  intros a t Ha Ht. simplify_eq. unfold timedelta_seconds.
  rewrite (Z.mul_comm _ 1000000). repeat split.
  - rewrite lookup_insert_ne by done. apply lookup_insert_eq.
  - apply lookup_insert_eq.
Qed.

End TokenProperties.

Lemma get_token_reuses_cached_witness :
  token_result
    (get_api_auth_token sample_fromisoformat sample_isoformat
       1767225599000000 1767225599500000
       (sample_auth_server TransportError)
       (sample_cached "2026-01-01T00:00:00")) = Return "tok-1".
Proof.
  refine (proj1 (get_token_reuses_cached sample_fromisoformat sample_isoformat
            1767225599000000 1767225599500000 (sample_auth_server TransportError)
            (sample_cached "2026-01-01T00:00:00") "tok-1" "2026-01-01T00:00:00"
            1767225600000000 _ _ _)).
  - repeat split; (vm_compute; reflexivity) || discriminate.
  - reflexivity.
  - lia.
Defined.

Lemma get_token_unparsable_expiry_witness :
  token_calls
    (get_api_auth_token sample_fromisoformat sample_isoformat
       1767225599000000 1767225599500000
       (sample_auth_server TransportError)
       (sample_cached "next tuesday")) = [].
Proof.
  refine (proj1 (proj2 (get_token_unparsable_expiry sample_fromisoformat
            sample_isoformat 1767225599000000 1767225599500000
            (sample_auth_server TransportError)
            (sample_cached "next tuesday") "tok-1" "next tuesday" _ _))).
  - repeat split; (vm_compute; reflexivity) || discriminate.
  - reflexivity.
Defined.

Lemma get_token_refreshes_witness :
  token_calls
    (get_api_auth_token sample_fromisoformat sample_isoformat
       1767225600000000 1767225600000000
       (sample_auth_server (Response 200 (Some (mk_auth_data (Some "tok-2") None))))
       (sample_cached "2026-01-01T00:00:00"))
  = [mk_auth_request "https://mao.example/auth/token" "reporting" "s3cret"
       "client_credentials"].
Proof.
  refine (proj1 (get_token_refreshes sample_fromisoformat sample_isoformat
            1767225600000000 1767225600000000
            (sample_auth_server (Response 200 (Some (mk_auth_data (Some "tok-2") None))))
            (sample_cached "2026-01-01T00:00:00")
            "https://mao.example" "reporting" "s3cret" _ _)).
  - right. exists "tok-1", "2026-01-01T00:00:00", 1767225600000000.
    repeat split; (vm_compute; reflexivity) || discriminate || lia.
  - repeat split; vm_compute; reflexivity.
Defined.

(** ** OrderQuery *)

Lemma customize_payload_Size p config :
  Size (customize_payload p config) = Size p.
Proof.
  destruct config as [c |]; [| reflexivity].
  simpl. now destruct (config_truthy c).
Qed.

Section PaginationProperties.
Variable search_server : nat -> search_request -> http_reply search_body.
Variables (endpoint auth : string) (p : payload).
Hypothesis page_size : Size p = 100%nat.

Local Abbreviation run := (search_pages search_server).
Local Abbreviation reply := (page_reply search_server endpoint auth p).
Local Abbreviation acc := (accumulated search_server endpoint auth p).
Local Abbreviation reqs := (requests_upto endpoint auth p).
Local Abbreviation stop := (stop_condition search_server endpoint auth p).
Local Abbreviation stops := (stops_at search_server endpoint auth p).
Local Abbreviation continues := (continues_at search_server endpoint auth p).

(** The loop only reads its payload through [payload["Page"] = page]
    and [payload["Size"]]. *)
Lemma search_pages_set_Page fuel k q all page log :
  run fuel endpoint auth (set_Page q k) all page log
  = run fuel endpoint auth q all page log.
Proof.
  destruct fuel; reflexivity.
Qed.

Lemma requests_upto_S k : reqs (S k) = reqs k ++ [page_request endpoint auth p k].
Proof. unfold requests_upto. now rewrite seq_S, map_app. Qed.

Lemma requests_upto_length k : length (reqs k) = k.
Proof. unfold requests_upto. now rewrite length_map, length_seq. Qed.

Lemma accumulated_S k :
  acc (S k) = acc k ++ page_records search_server endpoint auth p k.
Proof.
  unfold accumulated. rewrite seq_S, map_app, concat_app. simpl.
  now rewrite app_nil_r.
Qed.

(** One round of the loop, at page [page] with the records of the
    earlier pages accumulated. *)
Lemma search_pages_round fuel page :
  run (S fuel) endpoint auth p (acc page) page (reqs page) =
  match reply page with
  | TransportError => mk_page_run (Some (Raise ConnectionError)) (reqs (S page))
  | Response status json =>
      if negb (status =? 200)
      then mk_page_run (Some (Raise (ApiReturnedError status))) (reqs (S page))
      else match json with
           | None => mk_page_run (Some (Raise JSONDecodeError)) (reqs (S page))
           | Some b =>
               if stop page b
               then mk_page_run (Some (Return (acc (S page)))) (reqs (S page))
               else run fuel endpoint auth p (acc (S page)) (S page) (reqs (S page))
           end
  end.
Proof.
  simpl. rewrite requests_upto_length, <- requests_upto_S.
  rewrite accumulated_S. unfold page_records.
  fold (page_request endpoint auth p page).
  fold (page_reply search_server endpoint auth p page).
  destruct (reply page) as [| status json]; [reflexivity |].
  destruct (status =? 200) eqn:Hst; [| reflexivity]. simpl.
  destruct json as [b |]; [| reflexivity].
  unfold stop_condition, empty_page, count_reached, short_page.
  rewrite page_size.
  destruct (data b) as [[| r d] |]; simpl.
  - now rewrite app_nil_r.
  - rewrite length_app. simpl.
    rewrite search_pages_set_Page. reflexivity.
  - now rewrite app_nil_r.
Qed.

Lemma search_pages_reaches n fuel page :
  (page <= n)%nat ->
  (forall i, (page <= i < n)%nat -> continues i) ->
  stops n ->
  (n - page < fuel)%nat ->
  run fuel endpoint auth p (acc page) page (reqs page)
  = mk_page_run (Some (Return (acc (S n)))) (reqs (S n)).
Proof.
  revert page. induction fuel as [| fuel IH]; intros page Hle Hcont Hstop Hfuel.
  - lia.
  - rewrite search_pages_round.
    destruct (decide (page = n)) as [-> | Hne].
    + destruct Hstop as (b & -> & ->). reflexivity.
    + destruct (Hcont page) as (b & -> & ->); [lia |]. simpl.
      apply IH; [lia | | assumption | lia].
      intros i Hi. apply Hcont. lia.
Qed.

Lemma search_pages_trace fuel page :
  (forall i, (i < page)%nat -> continues i) ->
  exists k,
    (page <= k <= page + fuel)%nat
    /\ page_requests (run fuel endpoint auth p (acc page) page (reqs page)) = reqs k
    /\ forall res,
         page_result (run fuel endpoint auth p (acc page) page (reqs page))
         = Some (Return res) ->
         exists n, k = S n /\ stops n
                   /\ (forall i, (i < n)%nat -> continues i)
                   /\ res = acc (S n).
Proof.
  revert page. induction fuel as [| fuel IH]; intros page Hcont.
  - exists page. simpl. repeat split; try lia. discriminate.
  - rewrite search_pages_round.
    destruct (reply page) as [| status json] eqn:Hreply.
    { exists (S page). simpl. repeat split; try lia. discriminate. }
    destruct (status =? 200) eqn:Hst; simpl.
    2:{ exists (S page). simpl. repeat split; try lia. discriminate. }
    apply Z.eqb_eq in Hst. subst status.
    destruct json as [b |].
    2:{ exists (S page). simpl. repeat split; try lia. discriminate. }
    destruct (stop page b) eqn:Hstop.
    + exists (S page). simpl. repeat split; try lia.
      intros res [= <-]. exists page. repeat split; auto.
      exists b. auto.
    + destruct (IH (S page)) as (k & Hk & Hreq & Hres).
      { intros i Hi. destruct (decide (i = page)) as [-> | Hne].
        - exists b. auto.
        - apply Hcont. lia. }
      exists k. repeat split; auto; lia.
Qed.

End PaginationProperties.

Section QueryProperties.
Variable fromisoformat : string -> option Z.
Variable isoformat : Z -> string.
Variable now_at_check now_at_issue : Z.
Variable auth_server : auth_request -> http_reply auth_data.
Variable search_server : nat -> search_request -> http_reply search_body.

Local Abbreviation query :=
  (query_order_api fromisoformat isoformat now_at_check now_at_issue
     auth_server search_server).
Local Abbreviation get_token :=
  (get_api_auth_token fromisoformat isoformat now_at_check now_at_issue auth_server).

Lemma pages_of_requests_upto endpoint auth p k :
  map (fun req => Page (body req)) (requests_upto endpoint auth p k) = seq 0 k.
Proof.
  unfold requests_upto. rewrite map_map. simpl. apply map_id.
Qed.

Section Run.
Variables (vars : variables) (url token from_date to_date : string).
Variable config : option report_config.
Hypothesis base_url : vars !! "order_api_base_url" = Some url.
Hypothesis token_ok : token_result (get_token vars) = Return token.

Let p := customize_payload (default_payload from_date to_date) config.
Let endpoint := url +:+ "/order/search".
Let auth := "Bearer " +:+ token.

Lemma query_is_search_pages fuel :
  query fuel vars from_date to_date config =
  let r := search_pages search_server fuel endpoint auth p [] 0%nat [] in
  mk_query_run (page_result r) (token_vars (get_token vars))
    (token_calls (get_token vars)) (page_requests r).
Proof.
  unfold query_order_api, Variable_get.
  rewrite base_url, token_ok. reflexivity.
Qed.

Lemma payload_size : Size p = 100%nat.
Proof. subst p. now rewrite customize_payload_Size. Qed.

Lemma query_trace fuel :
  let r := query fuel vars from_date to_date config in
  exists k, (k <= fuel)%nat
    /\ query_requests r = requests_upto endpoint auth p k
    /\ pages_requested r = seq 0 k
    /\ NoDup (pages_requested r)
    /\ forall res, query_result r = Some (Return res) ->
         exists n, k = S n
           /\ stops_at search_server endpoint auth p n
           /\ (forall i, (i < n)%nat ->
                 continues_at search_server endpoint auth p i)
           /\ res = accumulated search_server endpoint auth p (S n).
Proof.
  intros r. subst r. rewrite query_is_search_pages.
  destruct (search_pages_trace search_server endpoint auth p payload_size fuel 0)
    as (k & Hk & Hreq & Hres); [lia |].
  change (accumulated search_server endpoint auth p 0) with (@nil record) in *.
  change (requests_upto endpoint auth p 0) with (@nil search_request) in *.
  exists k. unfold pages_requested.
  cbn [query_result query_requests]. rewrite Hreq.
  rewrite pages_of_requests_upto.
  repeat split; [lia | apply NoDup_seq | exact Hres].
Qed.

Lemma query_reaches n fuel :
  stops_at search_server endpoint auth p n ->
  (forall i, (i < n)%nat -> continues_at search_server endpoint auth p i) ->
  (n < fuel)%nat ->
  let r := query fuel vars from_date to_date config in
  query_result r = Some (Return (accumulated search_server endpoint auth p (S n)))
  /\ pages_requested r = seq 0 (S n).
Proof.
  intros Hstop Hcont Hfuel r. subst r. rewrite query_is_search_pages.
  pose proof (search_pages_reaches search_server endpoint auth p payload_size
                n fuel 0) as Hrun.
  change (accumulated search_server endpoint auth p 0) with (@nil record) in *.
  change (requests_upto endpoint auth p 0) with (@nil search_request) in *.
  rewrite Hrun; try lia; auto.
  + unfold pages_requested.
    cbn [query_result query_requests page_result page_requests].
    split; [reflexivity | apply pages_of_requests_upto].
  + intros i Hi. apply Hcont. lia.
Qed.

End Run.

(** C1: once the base URL is configured and a token obtained, every
    run requests the pages 0, 1, 2, ... in this order, each at most
    once; it returns normally exactly at the first page [n] that is
    answered with 200 and is empty, or brings the accumulated count
    to the reported total, or holds fewer than 100 records, with the
    records of the pages up to [n]; every earlier page was answered
    with 200 and met none of these conditions. *)
Theorem query_pagination (vars : variables) url token from_date to_date config :
  vars !! "order_api_base_url" = Some url ->
  token_result (get_token vars) = Return token ->
  let p := customize_payload (default_payload from_date to_date) config in
  let endpoint := url +:+ "/order/search" in
  let auth := "Bearer " +:+ token in
  let stops := stops_at search_server endpoint auth p in
  let continues := continues_at search_server endpoint auth p in
  let acc := accumulated search_server endpoint auth p in
  (forall fuel,
      let r := query fuel vars from_date to_date config in
      exists k, (k <= fuel)%nat
        /\ query_requests r = requests_upto endpoint auth p k
        /\ pages_requested r = seq 0 k
        /\ NoDup (pages_requested r)
        /\ forall res, query_result r = Some (Return res) ->
             exists n, k = S n /\ stops n
                       /\ (forall i, (i < n)%nat -> continues i)
                       /\ res = acc (S n))
  /\ (forall n, stops n -> (forall i, (i < n)%nat -> continues i) ->
       forall fuel, (n < fuel)%nat ->
         let r := query fuel vars from_date to_date config in
         query_result r = Some (Return (acc (S n)))
         /\ pages_requested r = seq 0 (S n)).
Proof.
  intros Hurl Htok p endpoint auth stops continues acc. split.
  - intros fuel. now apply query_trace.
  - intros n Hstop Hcont fuel Hfuel. now apply query_reaches.
Qed.

(** C2 fails on the code: a 200 response without [totalCount] is
    compared against the default total 0, which any accumulated count
    reaches, so the run returns with that page, whatever its size; a
    full page is not followed by a request for the next one and the
    short-page test never gets to end the loop. *)
Theorem query_stops_without_total (vars : variables) url token from_date to_date
    config n b :
  vars !! "order_api_base_url" = Some url ->
  token_result (get_token vars) = Return token ->
  let p := customize_payload (default_payload from_date to_date) config in
  let endpoint := url +:+ "/order/search" in
  let auth := "Bearer " +:+ token in
  (forall i, (i < n)%nat -> continues_at search_server endpoint auth p i) ->
  page_reply search_server endpoint auth p n = Response 200 (Some b) ->
  totalCount b = None ->
  count_reached search_server endpoint auth p 0 n b = true
  /\ forall fuel, (n < fuel)%nat ->
       let r := query fuel vars from_date to_date config in
       query_result r
       = Some (Return (accumulated search_server endpoint auth p n
                       ++ default [] (data b)))
       /\ pages_requested r = seq 0 (S n).
Proof.
  intros Hurl Htok p endpoint auth Hcont Hreply Htotal.
  assert (Hcount : count_reached search_server endpoint auth p 0 n b = true).
  { unfold count_reached. apply Z.leb_le. lia. }
  split; [exact Hcount |].
  intros fuel Hfuel r.
  assert (Hstop : stops_at search_server endpoint auth p n).
  { exists b. split; [exact Hreply |].
    unfold stop_condition. rewrite Htotal. simpl.
    fold p endpoint auth. rewrite Hcount. now rewrite orb_true_r. }
  destruct (query_reaches vars url token from_date to_date config Hurl Htok
              n fuel Hstop Hcont Hfuel) as [Hres Hpages].
  split; [| exact Hpages].
  subst r. rewrite Hres.
  rewrite (accumulated_S search_server). unfold page_records.
  fold p endpoint auth. rewrite Hreply. reflexivity.
Qed.

End QueryProperties.

Lemma query_pagination_witness :
  pages_requested
    (sample_query [sample_page 100 (Some 150); sample_page 50 (Some 150)] 5)
  = seq 0 2.
Proof.
  refine (proj2 (proj2 (query_pagination sample_fromisoformat sample_isoformat
            1767225599000000 1767225599500000 (sample_auth_server TransportError)
            (sample_search_server [sample_page 100 (Some 150); sample_page 50 (Some 150)])
            (sample_cached "2026-01-01T00:00:00") "https://mao.example" "tok-1"
            "01 Nov 2026" "04 Nov 2026" None _ _) 1%nat _ _ 5%nat _)).
  - vm_compute; reflexivity.
  - vm_compute; reflexivity.
  - exists (sample_page 50 (Some 150)). split; vm_compute; reflexivity.
  - intros i Hi. assert (i = 0%nat) as -> by lia.
    exists (sample_page 100 (Some 150)). split; vm_compute; reflexivity.
  - lia.
Defined.

(** The failing input of C2: page 0 is a full page of 100 records
    without [totalCount], and page 1 is never requested. *)
Lemma full_page_without_total_stops : ~ full_page_without_total_continues.
Proof.
  intros Hclaim.
  specialize (Hclaim sample_fromisoformat sample_isoformat
                1767225599000000 1767225599500000 (sample_auth_server TransportError)
                (sample_search_server
                   [sample_page 100 None; sample_page 100 None; sample_page 37 None])
                (sample_cached "2026-01-01T00:00:00") "https://mao.example" "tok-1"
                "01 Nov 2026" "04 Nov 2026" None 0%nat (sample_page 100 None) 5%nat).
  assert (Hin : In 1%nat [0%nat]).
  { apply Hclaim; try (vm_compute; reflexivity); try lia. }
  destruct Hin as [Hin | []]. discriminate.
Qed.

Lemma query_stops_without_total_witness :
  pages_requested
    (sample_query [sample_page 100 None; sample_page 100 None; sample_page 37 None] 5)
  = seq 0 1.
Proof.
  refine (proj2 (proj2 (query_stops_without_total sample_fromisoformat sample_isoformat
            1767225599000000 1767225599500000 (sample_auth_server TransportError)
            (sample_search_server
               [sample_page 100 None; sample_page 100 None; sample_page 37 None])
            (sample_cached "2026-01-01T00:00:00") "https://mao.example" "tok-1"
            "01 Nov 2026" "04 Nov 2026" None 0%nat (sample_page 100 None) _ _ _ _ _)
          5%nat _)).
  - vm_compute; reflexivity.
  - vm_compute; reflexivity.
  - intros i Hi. lia.
  - vm_compute; reflexivity.
  - reflexivity.
  - lia.
Defined.

(** ** ReportRenderer *)

Lemma mem_str_In k l : mem_str k l = true <-> In k l.
Proof.
  unfold mem_str. rewrite existsb_exists. split.
  - intros (x & Hx & Heq). apply String.eqb_eq in Heq. now subst.
  - intros Hin. exists k. split; [assumption | apply String.eqb_refl].
Qed.

Lemma add_new_keys_In k ks seen :
  In k (add_new_keys seen ks) <-> In k seen \/ In k ks.
Proof.
  revert seen. induction ks as [| k' ks IH]; intros seen; simpl.
  - tauto.
  - rewrite IH. destruct (mem_str k' seen) eqn:Hmem.
    + apply mem_str_In in Hmem. split; [tauto |].
      intros [Hs | [-> | Hk]]; tauto.
    + rewrite in_app_iff. simpl. tauto.
Qed.

Lemma fold_keys_In k results seen :
  In k (fold_left (fun seen r => add_new_keys seen (map fst r)) results seen)
  <-> In k seen \/ exists r : record, In r results /\ In k (map fst r).
Proof.
  revert seen. induction results as [| r results IH]; intros seen; simpl.
  - split; [tauto | intros [Hs | (r & [] & _)]; assumption].
  - rewrite IH, add_new_keys_In. split.
    + intros [[Hs | Hr] | (r' & Hin & Hk)]; eauto.
    + intros [Hs | (r' & [<- | Hin] & Hk)]; eauto.
Qed.

Lemma frame_keys_In k results :
  In k (frame_keys results)
  <-> exists r : record, In r results /\ In k (map fst r).
Proof.
  unfold frame_keys. rewrite fold_keys_In. simpl. tauto.
Qed.

Lemma dict_get_None (r : record) k : dict_get r k = None <-> ~ In k (map fst r).
Proof.
  induction r as [| [k' v] r IH]; simpl; [tauto |].
  destruct (String.eqb k k') eqn:Heq.
  - apply String.eqb_eq in Heq. subst. split; [discriminate | tauto].
  - apply String.eqb_neq in Heq. rewrite IH. split.
    + intros Hn [-> | Hin]; tauto.
    + tauto.
Qed.

Lemma columns_make_DataFrame results :
  columns (make_DataFrame results) = frame_keys results.
Proof.
  unfold columns, make_DataFrame. simpl. rewrite map_map. simpl. apply map_id.
Qed.

Lemma in_columns_iff fld results :
  in_columns fld (make_DataFrame results) = true
  <-> exists r : record, In r results /\ dict_get r fld <> None.
Proof.
  unfold in_columns. rewrite columns_make_DataFrame, mem_str_In, frame_keys_In.
  split; intros (r & Hin & Hk); exists r; split; auto.
  - rewrite dict_get_None. tauto.
  - destruct (in_dec string_dec fld (map fst r)) as [Hi | Hn]; [assumption |].
    apply dict_get_None in Hn. contradiction.
Qed.

Lemma find_column_map (f : string -> series) keys k :
  In k keys -> find_column (map (fun k => (k, f k)) keys) k = Some (f k).
Proof.
  induction keys as [| k' keys IH]; simpl; [tauto |].
  intros Hin. destruct (String.eqb k k') eqn:Heq.
  - apply String.eqb_eq in Heq. now subst.
  - apply String.eqb_neq in Heq. destruct Hin as [-> | Hin]; [tauto | auto].
Qed.

Lemma lookup_map {A B} (f : A -> B) (l : list A) i :
  map f l !! i = f <$> (l !! i).
Proof.
  revert i. induction l as [| x l IH]; intros [| i]; simpl; auto.
Qed.

Lemma lookup_filter_In {A} (P : A -> bool) (l : list A) i x :
  List.filter P l !! i = Some x -> P x = true.
Proof.
  intros Hl. apply list_elem_of_lookup_2, list_elem_of_In in Hl.
  now apply filter_In in Hl.
Qed.

Section RendererProperties.
Context `{Libraries}.

(** The non-empty path of [generate_pdf_report], in one piece. *)
Lemma render_nonempty now fs title first rest config execution_date :
  generate_pdf_report now fs title (first :: rest) config execution_date =
  let df := make_DataFrame (first :: rest) in
  let fields := table_fields_of df (report_fields_of config first) in
  let d := default now execution_date in
  match col_widths (length fields) with
  | Raise e => mk_render_run (Raise e) fs
  | Return widths =>
      mk_render_run (Return (pdf_path config d))
        (<[pdf_path config d :=
             mk_document LandscapeLetter
               (([title_line title d; Spacer 1 12]
                 ++ description_section config
                 ++ summary_section df config
                 ++ [Paragraph "Detailed Data" Heading2])
                ++ [DataTable (table_data df fields) widths
                      (zebra (length (table_data df fields)))])]> fs)
  end.
Proof. reflexivity. Qed.

(** C3 fails on the code: when none of the configured report fields is
    a key of any record, the table has no column and the column width
    [600 // len(table_fields)] raises [ZeroDivisionError]; no document
    is written. *)
Theorem render_without_known_fields_raises now fs title results c fields
    execution_date :
  results <> [] ->
  report_fields c = Some fields ->
  (forall fld (r : record), In fld fields -> In r results -> dict_get r fld = None) ->
  generate_pdf_report now fs title results (Some c) execution_date
  = mk_render_run (Raise ZeroDivisionError) fs.
Proof.
  intros Hne Hfields Hmissing.
  destruct results as [| first rest]; [contradiction |].
  rewrite render_nonempty.
  assert (Htruthy : truthy_config (Some c) = Some c).
  { unfold truthy_config, config_truthy. rewrite Hfields. simpl.
    now rewrite !orb_true_r. }
  assert (Hnone : table_fields_of (make_DataFrame (first :: rest))
                    (report_fields_of (Some c) first) = []).
  { unfold report_fields_of. rewrite Htruthy, Hfields. simpl.
    assert (Hall : forall fld, In fld fields ->
              in_columns fld (make_DataFrame (first :: rest)) = false).
    { intros fld Hf.
      destruct (in_columns fld (make_DataFrame (first :: rest))) eqn:Hin;
        [| reflexivity].
      apply in_columns_iff in Hin. destruct Hin as (r & Hr & Hget).
      exfalso. apply Hget. now apply Hmissing. }
    unfold table_fields_of. clear - Hall.
    induction fields as [| fld fields IH]; [reflexivity |]. simpl.
    rewrite (Hall fld) by (simpl; auto).
    apply IH. intros fld' Hf. apply Hall. simpl. auto. }
  simpl. rewrite Hnone. reflexivity.
Qed.

(** A cell that pandas filled with NaN is printed as "nan", whatever
    dtype the column and the row have. *)
Lemma nan_cell_text dt cells i :
  cells !! i = Some (PyFloat NaN) ->
  format_value (row_cell dt (infer_series cells) i) = "nan".
Proof.
  intros Hcell. unfold infer_series.
  destruct (forallb is_int64 cells) eqn:Hint.
  { rewrite forallb_forall in Hint.
    apply list_elem_of_lookup_2, list_elem_of_In, Hint in Hcell. discriminate. }
  destruct (forallb is_number_or_null cells && existsb is_number cells); simpl.
  - change NaN with (float_of PyNone). rewrite map_nth.
    now rewrite (nth_lookup_Some _ _ _ _ Hcell).
  - now rewrite (nth_lookup_Some _ _ _ _ Hcell).
Qed.

(** C5 fails on the code: the cell of a record that lacks the value of
    a column of the Detailed Data table is printed as "nan", not as the
    empty string ([pd.DataFrame] has filled it with NaN, so the default
    of [row.get(field, "")] is never used). *)
Theorem missing_value_renders_nan now fs title results config execution_date
    path i (r : record) fld :
  render_result (generate_pdf_report now fs title results config execution_date)
  = Return path ->
  results !! i = Some r ->
  dict_get r fld = None ->
  exists doc header body,
    render_fs (generate_pdf_report now fs title results config execution_date)
      !! path = Some doc
    /\ detailed_rows doc = Some (header :: body)
    /\ forall j, header !! j = Some fld ->
         exists row, body !! i = Some row /\ row !! j = Some "nan".
Proof.
  intros Hret Hi Hget.
  destruct results as [| first rest]; [discriminate |].
  revert Hret. rewrite render_nonempty. cbv zeta.
  set (df := make_DataFrame (first :: rest)).
  set (fields := table_fields_of df (report_fields_of config first)).
  destruct (col_widths (length fields)) as [widths | e]; [| discriminate].
  cbn [render_result render_fs]. intros [= <-].
  eexists _, fields, _. split; [apply lookup_insert_eq |].
  split.
  { unfold detailed_rows. cbn [elements]. rewrite last_snoc. reflexivity. }
  intros j Hj. exists (table_row df fields i). split.
  - rewrite lookup_map, lookup_seq_lt; [reflexivity |].
    apply lookup_lt_Some in Hi. exact Hi.
  - unfold table_row. rewrite lookup_map, Hj. simpl. f_equal.
    apply lookup_filter_In in Hj.
    unfold in_columns in Hj. subst df. rewrite columns_make_DataFrame in Hj.
    apply mem_str_In in Hj.
    unfold row_get, make_DataFrame. cbn [df_columns].
    rewrite (find_column_map
               (fun k => infer_series
                           (map (fun r => default (PyFloat NaN) (dict_get r k))
                              (first :: rest))) _ _ Hj).
    apply nan_cell_text. rewrite lookup_map, Hi. simpl. now rewrite Hget.
Qed.

Lemma truthy_config_summary_fields config c sfs :
  config = Some c -> summary_fields c = Some sfs -> truthy_config config = Some c.
Proof.
  intros -> Hs. unfold truthy_config, config_truthy. rewrite Hs. simpl.
  now rewrite !orb_true_r.
Qed.

Lemma heading_in_summary_section df config :
  In summary_heading (summary_section df config)
  <-> exists c sfs, config = Some c /\ summary_fields c = Some sfs.
Proof.
  unfold summary_section. split.
  - destruct config as [c |]; simpl; [| tauto].
    destruct (config_truthy c); [| simpl; tauto].
    destruct (summary_fields c) as [sfs |] eqn:Hs; [eauto | simpl; tauto].
  - intros (c & sfs & Hc & Hs).
    rewrite (truthy_config_summary_fields _ _ _ Hc Hs), Hs. now left.
Qed.

Lemma heading_not_in_description config :
  ~ In summary_heading (description_section config).
Proof.
  unfold description_section, summary_heading.
  destruct (truthy_config config) as [c |]; [| tauto].
  destruct (truthy_str (description c)); simpl; intuition discriminate.
Qed.

(** C6, as the code has it: in a rendered non-empty report the Summary
    heading is there exactly when the config has the key
    [summary_fields], be its sequence empty or not. *)
Theorem summary_heading_iff_key now fs title results config execution_date
    path doc :
  results <> [] ->
  render_result (generate_pdf_report now fs title results config execution_date)
  = Return path ->
  render_fs (generate_pdf_report now fs title results config execution_date)
    !! path = Some doc ->
  (In summary_heading (elements doc)
   <-> exists c sfs, config = Some c /\ summary_fields c = Some sfs).
Proof.
  intros Hne. destruct results as [| first rest]; [contradiction |].
  rewrite render_nonempty. cbv zeta.
  destruct (col_widths _) as [widths | e]; [| discriminate].
  cbn [render_result render_fs]. intros [= <-].
  rewrite lookup_insert_eq. intros [= <-]. cbn [elements].
  rewrite <- (heading_in_summary_section (make_DataFrame (first :: rest))).
  cbn [In]. rewrite !in_app_iff. cbn [In].
  pose proof (heading_not_in_description config) as Hdesc.
  unfold summary_heading, title_line in *.
  split; [| tauto]. intuition discriminate.
Qed.

Lemma pdf_path_explicit config d :
  pdf_path config d =
  "/tmp/" +:+ match config with
              | Some c => default "report" (report_id c)
              | None => "report"
              end +:+ "_" +:+ strftime_compact d +:+ ".pdf".
Proof.
  unfold pdf_path, truthy_config. destruct config as [c |]; [| reflexivity].
  destruct (config_truthy c) eqn:Ht; [reflexivity |].
  unfold config_truthy in Ht. destruct (report_id c); [discriminate | reflexivity].
Qed.

Lemma render_writes_path now fs title results config execution_date p :
  render_result (generate_pdf_report now fs title results config execution_date)
  = Return p ->
  p = pdf_path config (default now execution_date)
  /\ is_Some (render_fs (generate_pdf_report now fs title results config
                           execution_date) !! p).
Proof.
  destruct results as [| first rest].
  - simpl. intros [= <-]. split; [reflexivity |].
    rewrite lookup_insert_eq. eauto.
  - rewrite render_nonempty. cbv zeta.
    destruct (col_widths _) as [widths | e]; [| discriminate].
    cbn [render_result render_fs]. intros [= <-]. split; [reflexivity |].
    rewrite lookup_insert_eq. eauto.
Qed.

(** A property checked on every number below a bound holds of each. *)
Lemma check_below (P : N -> bool) (bound : nat) :
  forallb (fun i => P (N.of_nat i)) (seq 0 bound) = true ->
  forall n, (n < N.of_nat bound)%N -> P n = true.
Proof.
  intros Hall n Hn. rewrite forallb_forall in Hall.
  specialize (Hall (N.to_nat n)). rewrite N2Nat.id in Hall.
  apply Hall, in_seq. lia.
Qed.

(** Below a thousand there is nothing to group: [f"{z:,}"] is [str(z)]. *)
Lemma format_int_grouped_small z :
  -1000 < z < 1000 -> format_int_grouped z = str_int z.
Proof.
  intros Hz. unfold format_int_grouped, str_int. f_equal.
  apply String.eqb_eq.
  apply (check_below (fun n => String.eqb (grouped_digits n) (digits_of_N n))
           1000); [vm_compute; reflexivity | lia].
Qed.

(** C4, as the code has it: for a summary field whose field is a
    column, a float sum is formatted with thousands separators and two
    decimals and an integer sum below 1000 in absolute value as its
    digits; avg and mean always with thousands separators and two
    decimals; count as the number of records with thousands
    separators; min and max as the plain string of the value, without
    separators or fixed decimals. *)
Theorem summary_value_formats df sf s :
  find_column (df_columns df) (field sf) = Some s ->
  (operation sf = "sum" ->
     (forall x, series_sum s = Some (PyFloat x) ->
        summary_row df sf = Some [label sf; format_float_2f x])
     /\ (forall z,
          series_sum s = Some (PyInt z) \/ series_sum s = Some (NpInt64 z) ->
          -1000 < z < 1000 ->
          summary_row df sf = Some [label sf; str_int z]))
  /\ (operation sf = "avg" \/ operation sf = "mean" ->
      forall x, series_mean s = Some (PyFloat x) ->
        summary_row df sf = Some [label sf; format_float_2f x])
  /\ (operation sf = "count" ->
      summary_row df sf
      = Some [label sf; format_int_grouped (Z.of_nat (df_len df))])
  /\ (operation sf = "min" ->
      forall v, series_min s = Some v ->
        summary_row df sf = Some [label sf; py_str v])
  /\ (operation sf = "max" ->
      forall v, series_max s = Some v ->
        summary_row df sf = Some [label sf; py_str v]).
Proof.
  intros Hcol. unfold summary_row. rewrite Hcol. unfold summary_value.
  split; [intros Hop; rewrite Hop; simpl; split |].
  - intros x Hsum. now rewrite Hsum.
  - intros z [Hsum | Hsum] Hz; rewrite Hsum; simpl;
      [now rewrite format_int_grouped_small | reflexivity].
  - split; [| split; [| split]].
    + intros [Hop | Hop] x Hmean; now rewrite Hop, Hmean.
    + intros Hop. now rewrite Hop.
    + intros Hop v Hmin. now rewrite Hop, Hmin.
    + intros Hop v Hmax. now rewrite Hop, Hmax.
Qed.

End RendererProperties.

Lemma render_without_known_fields_raises_witness :
  generate_pdf_report (H := sample_libraries) sample_date ∅ "Orders"
    [sample_order 1] (Some (sample_config (Some ["Total"]) None)) None
  = mk_render_run (Raise ZeroDivisionError) ∅.
Proof.
  apply (@render_without_known_fields_raises sample_libraries sample_date ∅
           "Orders" [sample_order 1] (sample_config (Some ["Total"]) None)
           ["Total"] None).
  - discriminate.
  - reflexivity.
  - intros fld r [<- | []] [<- | []]. reflexivity.
Defined.

Lemma missing_value_renders_nan_witness :
  exists doc header body,
    render_fs (generate_pdf_report (H := sample_libraries) sample_date ∅
                 "Orders" uneven_orders None None)
      !! "/tmp/report_20261104.pdf" = Some doc
    /\ detailed_rows doc = Some (header :: body)
    /\ forall j, header !! j = Some "qty" ->
         exists row, body !! 1%nat = Some row /\ row !! j = Some "nan".
Proof.
  apply (@missing_value_renders_nan sample_libraries sample_date ∅ "Orders"
           uneven_orders None None "/tmp/report_20261104.pdf" 1%nat
           [("id", PyStr "B2")] "qty").
  - vm_compute; reflexivity.
  - reflexivity.
  - reflexivity.
Defined.

(** C4, as stated, fails: the minimum of the amounts 1000, 2000, 3000
    is rendered "1000", not "1,000". *)
Lemma min_without_separators : ~ summary_values_formatted_alike.
Proof.
  intros Hclaim.
  specialize (Hclaim sample_libraries (make_DataFrame large_amounts)
                (IntSeries [1000; 2000; 3000]) "min" (NpInt64 1000)).
  assert (Hbad : Some "1000" = Some "1,000").
  { apply Hclaim; [simpl; tauto | reflexivity]. }
  discriminate.
Qed.

Lemma summary_value_formats_witness :
  summary_row (H := sample_libraries) (make_DataFrame int_amounts)
    (mk_summary_field "amt" "sum" "Total") = Some ["Total"; "60"]
  /\ summary_row (H := sample_libraries) (make_DataFrame float_amounts)
       (mk_summary_field "amt" "sum" "Total") = Some ["Total"; "60.00"]
  /\ summary_row (H := sample_libraries) (make_DataFrame large_amounts)
       (mk_summary_field "amt" "avg" "Average") = Some ["Average"; "2,000.00"]
  /\ summary_row (H := sample_libraries) (make_DataFrame large_amounts)
       (mk_summary_field "amt" "max" "Largest") = Some ["Largest"; "3000"].
Proof.
  split; [| split; [| split]].
  - refine (proj2 (proj1 (@summary_value_formats sample_libraries
              (make_DataFrame int_amounts) (mk_summary_field "amt" "sum" "Total")
              (IntSeries [10; 20; 30]) _) _) 60 _ _).
    + reflexivity.
    + reflexivity.
    + right. vm_compute; reflexivity.
    + lia.
  - refine (proj1 (proj1 (@summary_value_formats sample_libraries
              (make_DataFrame float_amounts) (mk_summary_field "amt" "sum" "Total")
              (FloatSeries [float_of_Z 10; float_of_Z 20; float_of_Z 30]) _) _)
              (float_of_Z 60) _).
    + reflexivity.
    + reflexivity.
    + vm_compute; reflexivity.
  - refine (proj1 (proj2 (@summary_value_formats sample_libraries
              (make_DataFrame large_amounts)
              (mk_summary_field "amt" "avg" "Average")
              (IntSeries [1000; 2000; 3000]) _)) _ (float_of_Z 2000) _).
    + reflexivity.
    + left. reflexivity.
    + vm_compute; reflexivity.
  - refine (proj2 (proj2 (proj2 (proj2 (@summary_value_formats sample_libraries
              (make_DataFrame large_amounts)
              (mk_summary_field "amt" "max" "Largest")
              (IntSeries [1000; 2000; 3000]) _)))) _ (NpInt64 3000) _).
    + reflexivity.
    + reflexivity.
    + reflexivity.
Defined.

(** C6, as stated, fails: with [summary_fields] present and empty the
    rendered document has the Summary heading. *)
Lemma empty_summary_fields_heading : ~ summary_iff_fields_nonempty.
Proof.
  intros Hclaim.
  destruct (render_fs (generate_pdf_report (H := sample_libraries) sample_date ∅
                         "Orders" [sample_order 1]
                         (Some (sample_config None (Some []))) None)
              !! "/tmp/daily_20261104.pdf") as [doc |] eqn:Hdoc;
    [| vm_compute in Hdoc; discriminate].
  specialize (Hclaim sample_libraries sample_date ∅ "Orders" [sample_order 1]
                (Some (sample_config None (Some []))) None
                "/tmp/daily_20261104.pdf" doc).
  destruct Hclaim as [Hnonempty _]; [discriminate | reflexivity | exact Hdoc |].
  destruct Hnonempty as (c & sfs & Hc & Hs & Hne).
  - vm_compute in Hdoc. injection Hdoc as <-. simpl. tauto.
  - injection Hc as <-. simpl in Hs. injection Hs as <-. now contradiction Hne.
Qed.

Lemma summary_heading_iff_key_witness :
  exists doc,
    render_fs (generate_pdf_report (H := sample_libraries) sample_date ∅
                 "Orders" [sample_order 1]
                 (Some (sample_config None (Some []))) None)
      !! "/tmp/daily_20261104.pdf" = Some doc
    /\ In summary_heading (elements doc).
Proof.
  eexists. split; [vm_compute; reflexivity |].
  apply (@summary_heading_iff_key sample_libraries sample_date ∅ "Orders"
           [sample_order 1] (Some (sample_config None (Some []))) None
           "/tmp/daily_20261104.pdf").
  - discriminate.
  - reflexivity.
  - vm_compute; reflexivity.
  - eexists _, _. split; reflexivity.
Defined.

(** * Further properties of the code *)

(** ** TokenProvider: what a call may change *)

Section TokenInvariants.
Variable fromisoformat : string -> option Z.
Variable isoformat : Z -> string.
Variable now_at_check now_at_issue : Z.
Variable auth_server : auth_request -> http_reply auth_data.

Local Abbreviation get_token :=
  (get_api_auth_token fromisoformat isoformat now_at_check now_at_issue auth_server).

(** X1: whatever the stored state and the server's reply,
    [get_api_auth_token] sends at most one request, touches no Variable
    other than [api_token] and [api_token_expiry], leaves all Variables
    as they were when it raises, and a token it returns is the one held
    in [api_token] afterwards. *)
Theorem get_token_footprint (vars : variables) :
  let r := get_api_auth_token fromisoformat isoformat now_at_check now_at_issue
             auth_server vars in
  (length (token_calls r) <= 1)%nat
  /\ (forall k, k <> "api_token" -> k <> "api_token_expiry" ->
        token_vars r !! k = vars !! k)
  /\ (forall e, token_result r = Raise e -> token_vars r = vars)
  /\ (forall tok, token_result r = Return tok ->
        token_vars r !! "api_token" = Some tok).
Proof.
  cbv zeta. unfold get_api_auth_token, acquire_new_token, Variable_get, truthy_str.
  repeat case_match; simplify_eq/=;
    (split; [lia |]); (split; [| split]); intros; simplify_eq;
    rewrite ?lookup_insert_ne by done; rewrite ?lookup_insert_eq; done.
Qed.

End TokenInvariants.

Section TokenRefreshThenReuse.
Variable fromisoformat : string -> option Z.
Variable isoformat : Z -> string.
(** The clock and the server of the refreshing call, then of the next call. *)
Variables now_at_check now_at_issue : Z.
Variable auth_server : auth_request -> http_reply auth_data.
Variables later_check later_issue : Z.
Variable later_server : auth_request -> http_reply auth_data.

(** X2: a refreshed token is reused.  After a call that refreshed the
    credential with token [tok] and lifetime [expires_in] (3600 s by
    default), a later call made before [now + expires_in] returns [tok]
    again without any request and without touching the Variables,
    provided the stored expiry text reads back as the time it was
    written from. *)
Theorem refreshed_token_is_reused (vars : variables) url cid secret auth tok :
  credential_absent vars \/ credential_expired fromisoformat now_at_check vars ->
  configured vars url cid secret ->
  auth_server (mk_auth_request (url +:+ "/auth/token") cid secret
                 "client_credentials") = Response 200 (Some auth) ->
  access_token auth = Some tok ->
  tok <> "" ->
  let expiry := now_at_issue + 1000000 * default 3600 (expires_in auth) in
  isoformat expiry <> "" ->
  fromisoformat (isoformat expiry) = Some expiry ->
  later_check < expiry ->
  let refreshed :=
    token_vars (get_api_auth_token fromisoformat isoformat now_at_check
                  now_at_issue auth_server vars) in
  get_api_auth_token fromisoformat isoformat later_check later_issue
    later_server refreshed
  = mk_token_run (Return tok) refreshed [].
Proof.
  intros Hstale (Hurl & Hcid & Hsec) Hreply Htok Hne expiry Hiso Hround Hlater
         refreshed.
  assert (Hvars : refreshed
                  = <["api_token_expiry" := isoformat expiry]>
                      (<["api_token" := tok]> vars)).
  { subst refreshed.
    rewrite (stale_credential_acquires _ _ _ _ _ _ Hstale).
    unfold acquire_new_token, Variable_get.
    rewrite Hurl, Hcid, Hsec, Hreply. simpl. rewrite Htok. simpl.
    unfold timedelta_seconds. subst expiry.
    now rewrite (Z.mul_comm _ 1000000). }
  assert (Hcached : credential_cached refreshed tok (isoformat expiry)).
  { rewrite Hvars. repeat split; auto.
    - rewrite lookup_insert_ne by done. apply lookup_insert_eq.
    - apply lookup_insert_eq. }
  rewrite (cached_branch _ _ _ _ _ _ _ _ Hcached), Hround.
  apply Z.ltb_lt in Hlater. now rewrite Hlater.
Qed.

End TokenRefreshThenReuse.

Lemma refreshed_token_is_reused_witness :
  let refreshed :=
    token_vars
      (get_api_auth_token sample_fromisoformat sample_isoformat
         1767222000000000 1767222000000000
         (sample_auth_server (Response 200 (Some (mk_auth_data (Some "tok-2") None))))
         sample_settings) in
  get_api_auth_token sample_fromisoformat sample_isoformat
    1767225000000000 1767225000000001 (sample_auth_server TransportError)
    refreshed
  = mk_token_run (Return "tok-2") refreshed [].
Proof.
  apply (refreshed_token_is_reused sample_fromisoformat sample_isoformat
           1767222000000000 1767222000000000
           (sample_auth_server (Response 200 (Some (mk_auth_data (Some "tok-2") None))))
           1767225000000000 1767225000000001 (sample_auth_server TransportError)
           sample_settings "https://mao.example" "reporting" "s3cret"
           (mk_auth_data (Some "tok-2") None) "tok-2").
  - left. left. vm_compute; reflexivity.
  - repeat split; vm_compute; reflexivity.
  - reflexivity.
  - reflexivity.
  - discriminate.
  - vm_compute. discriminate.
  - vm_compute; reflexivity.
  - vm_compute; reflexivity.
Defined.

(** ** OrderQuery: payload, failures and termination *)

(** X3: whatever the report configuration, the search payload keeps the
    date-range filter on [OrderDate] as its first filter, has at most
    one more filter, every filter carries the payload's own view name,
    and the paging constants of the template (page 0, size 100, cap
    1000, descending order, Chicago time) are not changed. *)
Theorem payload_keeps_template from_date to_date config :
  let p := customize_payload (default_payload from_date to_date) config in
  (exists extra,
      Filters p = mk_search_filter (ViewName p) "OrderDate" None
                    (DateFilter from_date to_date) :: extra
      /\ (length extra <= 1)%nat
      /\ Forall (fun f => f_AttributeId f = "TextSearch") extra)
  /\ Forall (fun f => f_ViewName f = ViewName p) (Filters p)
  /\ Page p = 0%nat /\ Size p = 100%nat /\ MaxCountLimit p = 1000
  /\ TotalCount p = -1 /\ SortOrder p = "desc" /\ TimeZone p = "America/Chicago".
Proof.
  destruct config as [c |]; simpl.
  2:{ split; [exists []; repeat split; auto |]. repeat split; auto. }
  destruct (config_truthy c); simpl.
  2:{ split; [exists []; repeat split; auto |]. repeat split; auto. }
  destruct (query_parameter c view_name) as [v |];
    destruct (query_parameter c order_type) as [ot |]; simpl;
    (split; [eexists; split; [reflexivity |]; simpl; split; [lia | auto] |]);
    repeat split; auto.
Qed.

Section PaginationFailures.
Variable search_server : nat -> search_request -> http_reply search_body.
Variables (endpoint auth : string) (p : payload).
Hypothesis page_size : Size p = 100%nat.

Local Abbreviation run := (search_pages search_server).
Local Abbreviation reply := (page_reply search_server endpoint auth p).
Local Abbreviation acc := (accumulated search_server endpoint auth p).
Local Abbreviation reqs := (requests_upto endpoint auth p).
Local Abbreviation continues := (continues_at search_server endpoint auth p).

Lemma search_pages_fails n status json fuel page :
  (page <= n)%nat ->
  (forall i, (page <= i < n)%nat -> continues i) ->
  reply n = Response status json ->
  status <> 200 ->
  (n - page < fuel)%nat ->
  run fuel endpoint auth p (acc page) page (reqs page)
  = mk_page_run (Some (Raise (ApiReturnedError status))) (reqs (S n)).
Proof.
  revert page. induction fuel as [| fuel IH]; intros page Hle Hcont Hreply Hst Hfuel.
  - lia.
  - rewrite (search_pages_round search_server endpoint auth p page_size).
    destruct (decide (page = n)) as [-> | Hne].
    + rewrite Hreply. apply Z.eqb_neq in Hst. now rewrite Hst.
    + destruct (Hcont page) as (b & -> & ->); [lia |]. simpl.
      apply IH; auto; try lia. intros i Hi. apply Hcont. lia.
Qed.

Lemma search_pages_unfinished fuel page :
  page_result (run fuel endpoint auth p (acc page) page (reqs page)) = None ->
  forall i, (page <= i < page + fuel)%nat -> continues i.
Proof.
  revert page. induction fuel as [| fuel IH]; intros page Hnone i Hi.
  - lia.
  - rewrite (search_pages_round search_server endpoint auth p page_size) in Hnone.
    destruct (reply page) as [| status json] eqn:Hreply; [discriminate |].
    destruct (status =? 200) eqn:Hst; [| discriminate]. simpl in Hnone.
    apply Z.eqb_eq in Hst. subst status.
    destruct json as [b |]; [| discriminate].
    destruct (stop_condition search_server endpoint auth p page b) eqn:Hstop;
      [discriminate |].
    destruct (decide (i = page)) as [-> | Hne].
    + exists b. auto.
    + apply (IH (S page) Hnone). lia.
Qed.

(** Pages that let the loop go on are full pages. *)
Lemma accumulated_full n :
  (forall i, (i < n)%nat -> continues i) ->
  (100 * n <= length (acc n))%nat.
Proof.
  induction n as [| n IH]; intros Hcont; [simpl; lia |].
  rewrite (accumulated_S search_server), length_app.
  assert (Hn : (100 * n <= length (acc n))%nat) by (apply IH; auto).
  destruct (Hcont n) as (b & Hreply & Hstop); [lia |].
  unfold page_records. fold (reply n). rewrite Hreply. simpl.
  unfold stop_condition, short_page in Hstop.
  apply orb_false_iff in Hstop. destruct Hstop as [_ Hshort].
  apply Nat.ltb_ge in Hshort. lia.
Qed.

Lemma continues_below_total n b :
  reply n = Response 200 (Some b) ->
  continues n ->
  Z.of_nat (length (acc n) + 100) < default 0 (totalCount b).
Proof.
  intros Hreply (b' & Hreply' & Hstop).
  unfold reply in *. rewrite Hreply in Hreply'. injection Hreply' as <-.
  unfold stop_condition, count_reached, short_page in Hstop.
  apply orb_false_iff in Hstop. destruct Hstop as [Hstop Hshort].
  apply orb_false_iff in Hstop. destruct Hstop as [_ Hcount].
  apply Nat.ltb_ge in Hshort. apply Z.leb_gt in Hcount. lia.
Qed.

End PaginationFailures.

Section QueryFailures.
Variable fromisoformat : string -> option Z.
Variable isoformat : Z -> string.
Variable now_at_check now_at_issue : Z.
Variable auth_server : auth_request -> http_reply auth_data.
Variable search_server : nat -> search_request -> http_reply search_body.

Local Abbreviation query :=
  (query_order_api fromisoformat isoformat now_at_check now_at_issue
     auth_server search_server).
Local Abbreviation get_token :=
  (get_api_auth_token fromisoformat isoformat now_at_check now_at_issue auth_server).

(** X4: no search request is sent without a base URL and a token: every
    request of a run goes to [{base_url}/order/search], carries the
    bearer header of the token that [get_api_auth_token] returned, and
    its body is the customized payload with only the page index set.
    In particular a failed authentication sends no search request. *)
Theorem search_requests_are_authorized (vars : variables) from_date to_date
    config fuel req :
  In req (query_requests (query fuel vars from_date to_date config)) ->
  exists url token,
    vars !! "order_api_base_url" = Some url
    /\ token_result (get_token vars) = Return token
    /\ search_endpoint req = url +:+ "/order/search"
    /\ authorization req = "Bearer " +:+ token
    /\ body req
       = set_Page (customize_payload (default_payload from_date to_date) config)
           (Page (body req)).
Proof.
  intros Hin.
  destruct (vars !! "order_api_base_url") as [url |] eqn:Hurl.
  2:{ unfold query_order_api, Variable_get in Hin. rewrite Hurl in Hin.
      destruct Hin. }
  destruct (token_result (get_token vars)) as [token | e] eqn:Htok.
  2:{ unfold query_order_api, Variable_get in Hin. rewrite Hurl, Htok in Hin.
      destruct Hin. }
  exists url, token. split; [reflexivity |]. split; [reflexivity |].
  destruct (query_trace fromisoformat isoformat now_at_check now_at_issue
              auth_server search_server vars url token from_date to_date config
              Hurl Htok fuel) as (k & _ & Hreq & _).
  rewrite Hreq in Hin. unfold requests_upto in Hin.
  apply in_map_iff in Hin. destruct Hin as (i & <- & _).
  repeat split.
Qed.

(** X5: a page answered with a status other than 200 ends the run with
    the API error of that status; the records of the pages fetched
    before it are not returned, and no page is requested after it. *)
Theorem query_fails_on_error_status (vars : variables) url token from_date to_date
    config n status json fuel :
  vars !! "order_api_base_url" = Some url ->
  token_result (get_token vars) = Return token ->
  let p := customize_payload (default_payload from_date to_date) config in
  let endpoint := url +:+ "/order/search" in
  let auth := "Bearer " +:+ token in
  (forall i, (i < n)%nat -> continues_at search_server endpoint auth p i) ->
  page_reply search_server endpoint auth p n = Response status json ->
  status <> 200 ->
  (n < fuel)%nat ->
  query_result (query fuel vars from_date to_date config)
  = Some (Raise (ApiReturnedError status))
  /\ pages_requested (query fuel vars from_date to_date config) = seq 0 (S n).
Proof.
  intros Hurl Htok p endpoint auth Hcont Hreply Hst Hfuel.
  rewrite (query_is_search_pages fromisoformat isoformat now_at_check
             now_at_issue auth_server search_server vars url token from_date
             to_date config Hurl Htok).
  cbv zeta. fold p endpoint auth.
  pose proof (search_pages_fails search_server endpoint auth p
                (payload_size from_date to_date config) n status json fuel 0)
    as Hrun.
  change (accumulated search_server endpoint auth p 0) with (@nil record) in Hrun.
  change (requests_upto endpoint auth p 0) with (@nil search_request) in Hrun.
  rewrite Hrun; auto; try lia.
  - unfold pages_requested.
    cbn [query_result query_requests page_result page_requests].
    split; [reflexivity | apply pages_of_requests_upto].
  - intros i Hi. apply Hcont. lia.
Qed.

(** X6: the loop cannot run on for ever against a server whose reported
    totals are bounded: when no 200 response reports a total above [T],
    a run has ended, with a result or an exception, after at most
    [fuel] requests as soon as [100 * fuel >= T]. *)
Theorem query_ends_within_total (vars : variables) url token from_date to_date
    config T fuel :
  vars !! "order_api_base_url" = Some url ->
  token_result (get_token vars) = Return token ->
  let p := customize_payload (default_payload from_date to_date) config in
  let endpoint := url +:+ "/order/search" in
  let auth := "Bearer " +:+ token in
  (forall i b, page_reply search_server endpoint auth p i = Response 200 (Some b) ->
     default 0 (totalCount b) <= T) ->
  (0 < fuel)%nat ->
  T <= 100 * Z.of_nat fuel ->
  (exists outcome,
      query_result (query fuel vars from_date to_date config) = Some outcome)
  /\ (length (query_requests (query fuel vars from_date to_date config)) <= fuel)%nat.
Proof.
  intros Hurl Htok p endpoint auth Hbound Hpos HT.
  destruct (query_trace fromisoformat isoformat now_at_check now_at_issue
              auth_server search_server vars url token from_date to_date config
              Hurl Htok fuel) as (k & Hk & Hreq & _).
  split.
  2:{ rewrite Hreq. unfold requests_upto. now rewrite length_map, length_seq. }
  destruct (query_result (query fuel vars from_date to_date config))
    as [outcome |] eqn:Hres; [eauto | exfalso].
  rewrite (query_is_search_pages fromisoformat isoformat now_at_check
             now_at_issue auth_server search_server vars url token from_date
             to_date config Hurl Htok) in Hres.
  cbv zeta in Hres. cbn [query_result] in Hres. fold p endpoint auth in Hres.
  pose proof (search_pages_unfinished search_server endpoint auth p
                (payload_size from_date to_date config) fuel 0 Hres) as Hcont.
  assert (Hlast : continues_at search_server endpoint auth p (fuel - 1)).
  { apply Hcont. lia. }
  pose proof Hlast as (b & Hreply & _).
  pose proof (continues_below_total search_server endpoint auth p
                (payload_size from_date to_date config) _ _ Hreply Hlast)
    as Hbelow.
  pose proof (accumulated_full search_server endpoint auth p
                (payload_size from_date to_date config) (fuel - 1)%nat) as Hfull.
  specialize (Hbound _ _ Hreply).
  assert ((100 * (fuel - 1) <= length (accumulated search_server endpoint auth p
                                          (fuel - 1)))%nat).
  { apply Hfull. intros i Hi. apply Hcont. lia. }
  lia.
Qed.

End QueryFailures.

Lemma search_requests_are_authorized_witness :
  exists url token,
    sample_cached "2026-01-01T00:00:00" !! "order_api_base_url" = Some url
    /\ token_result
         (get_api_auth_token sample_fromisoformat sample_isoformat
            1767225599000000 1767225599500000 (sample_auth_server TransportError)
            (sample_cached "2026-01-01T00:00:00")) = Return token
    /\ "https://mao.example/order/search" = url +:+ "/order/search"
    /\ "Bearer tok-1" = "Bearer " +:+ token
    /\ set_Page (default_payload "01 Nov 2026" "04 Nov 2026") 1
       = set_Page
           (customize_payload (default_payload "01 Nov 2026" "04 Nov 2026") None)
           1.
Proof.
  apply (search_requests_are_authorized sample_fromisoformat sample_isoformat
           1767225599000000 1767225599500000 (sample_auth_server TransportError)
           (sample_search_server
              [sample_page 100 (Some 150); sample_page 50 (Some 150)])
           (sample_cached "2026-01-01T00:00:00") "01 Nov 2026" "04 Nov 2026" None
           5%nat
           (mk_search_request "https://mao.example/order/search" "Bearer tok-1"
              (set_Page (default_payload "01 Nov 2026" "04 Nov 2026") 1))).
  vm_compute. right. left. reflexivity.
Defined.

Lemma query_fails_on_error_status_witness :
  query_result (sample_query [sample_page 100 (Some 500)] 5)
  = Some (Raise (ApiReturnedError 404))
  /\ pages_requested (sample_query [sample_page 100 (Some 500)] 5) = seq 0 2.
Proof.
  apply (query_fails_on_error_status sample_fromisoformat sample_isoformat
           1767225599000000 1767225599500000 (sample_auth_server TransportError)
           (sample_search_server [sample_page 100 (Some 500)])
           (sample_cached "2026-01-01T00:00:00") "https://mao.example" "tok-1"
           "01 Nov 2026" "04 Nov 2026" None 1%nat 404 None 5%nat).
  - vm_compute; reflexivity.
  - vm_compute; reflexivity.
  - intros i Hi. assert (i = 0%nat) as -> by lia.
    exists (sample_page 100 (Some 500)). split; vm_compute; reflexivity.
  - vm_compute; reflexivity.
  - discriminate.
  - lia.
Defined.

Lemma query_ends_within_total_witness :
  (exists outcome,
      query_result
        (sample_query [sample_page 100 (Some 150); sample_page 50 (Some 150)] 2)
      = Some outcome)
  /\ Nat.le
       (length
          (query_requests
             (sample_query [sample_page 100 (Some 150); sample_page 50 (Some 150)] 2)))
       2.
Proof.
  apply (query_ends_within_total sample_fromisoformat sample_isoformat
           1767225599000000 1767225599500000 (sample_auth_server TransportError)
           (sample_search_server
              [sample_page 100 (Some 150); sample_page 50 (Some 150)])
           (sample_cached "2026-01-01T00:00:00") "https://mao.example" "tok-1"
           "01 Nov 2026" "04 Nov 2026" None 150 2%nat).
  - vm_compute; reflexivity.
  - vm_compute; reflexivity.
  - intros i b Hreply. destruct i as [| [| i]]; vm_compute in Hreply.
    + injection Hreply as <-. vm_compute. discriminate.
    + injection Hreply as <-. vm_compute. discriminate.
    + discriminate.
  - lia.
  - lia.
Defined.

(** ** ReportRenderer: when it fails, and the shape of the table *)

Lemma filter_nil_iff {A} (P : A -> bool) (l : list A) :
  List.filter P l = [] <-> forall x, In x l -> P x = false.
Proof.
  induction l as [| a l IH]; simpl; [tauto |].
  destruct (P a) eqn:Ha.
  - split; [discriminate |]. intros Hall. specialize (Hall a). intuition congruence.
  - rewrite IH. split.
    + intros Hall x [<- | Hx]; auto.
    + intros Hall x Hx. auto.
Qed.

Lemma filter_all {A} (P : A -> bool) (l : list A) :
  (forall x, In x l -> P x = true) -> List.filter P l = l.
Proof.
  induction l as [| a l IH]; simpl; intros Hall; [reflexivity |].
  rewrite (Hall a) by auto. f_equal. apply IH. auto.
Qed.

Lemma col_widths_cases n :
  col_widths n = if (n =? 0)%nat then Raise ZeroDivisionError
                 else Return (repeat (column_width n) n).
Proof. reflexivity. Qed.

(** X7: line 401 gives every column the same width
    [max(100, min(200, 600 // n))]: it is 200 up to three columns, 100
    from six columns on, always between 100 and 200, and the widths add
    up to at most 600 exactly when there are at most six columns; with
    no column at all the division raises. *)
Theorem col_widths_bounds n :
  col_widths 0 = Raise ZeroDivisionError
  /\ (n <> 0%nat ->
      col_widths n = Return (repeat (column_width n) n)
      /\ 100 <= column_width n <= 200
      /\ ((n <= 3)%nat -> column_width n = 200)
      /\ ((6 <= n)%nat -> column_width n = 100)
      /\ (column_width n * Z.of_nat n <= 600 <-> (n <= 6)%nat)).
Proof.
  split; [reflexivity |]. intros Hn.
  split. { rewrite col_widths_cases. now destruct n. }
  unfold column_width.
  assert (Hpos : 0 < Z.of_nat n) by lia.
  pose proof (Z.div_mod 600 (Z.of_nat n) ltac:(lia)) as Hdiv.
  pose proof (Z.mod_pos_bound 600 (Z.of_nat n) Hpos) as Hmod.
  set (q := 600 / Z.of_nat n) in *. set (m := 600 mod Z.of_nat n) in *.
  repeat split; try lia; try nia.
Qed.

Section RendererShape.
Context `{Libraries}.

(** Membership of a configured field among the table columns. *)
Lemma table_fields_In fld results fields :
  In fld (table_fields_of (make_DataFrame results) fields)
  <-> In fld fields /\ exists r : record, In r results /\ dict_get r fld <> None.
Proof.
  unfold table_fields_of. rewrite filter_In, in_columns_iff. tauto.
Qed.

(** What a successful rendering of a non-empty result set has written. *)
Lemma render_returns_document now fs title first rest config execution_date
    path doc :
  render_result
    (generate_pdf_report now fs title (first :: rest) config execution_date)
  = Return path ->
  render_fs
    (generate_pdf_report now fs title (first :: rest) config execution_date)
    !! path = Some doc ->
  let df := make_DataFrame (first :: rest) in
  let fields := table_fields_of df (report_fields_of config first) in
  fields <> []
  /\ path = pdf_path config (default now execution_date)
  /\ doc = mk_document LandscapeLetter
             (([title_line title (default now execution_date); Spacer 1 12]
               ++ description_section config
               ++ summary_section df config
               ++ [Paragraph "Detailed Data" Heading2])
              ++ [DataTable (table_data df fields)
                    (repeat (column_width (length fields)) (length fields))
                    (zebra (length (table_data df fields)))]).
Proof.
  rewrite render_nonempty. cbv zeta. rewrite col_widths_cases.
  destruct (length _ =? 0)%nat eqn:Hlen; [discriminate |].
  cbn [render_result render_fs]. intros [= <-].
  rewrite lookup_insert_eq. intros [= <-].
  split; [| split; reflexivity].
  intros Hnil. rewrite Hnil in Hlen. discriminate.
Qed.

(** No chosen field is a key of any record exactly when the table is
    left without a column. *)
Lemma table_fields_nil_iff results chosen :
  table_fields_of (make_DataFrame results) chosen = []
  <-> forall fld (r : record),
        In fld chosen -> In r results -> dict_get r fld = None.
Proof.
  unfold table_fields_of. rewrite filter_nil_iff. split.
  - intros Hall fld r Hf Hr.
    destruct (dict_get r fld) eqn:Hget; [| reflexivity].
    assert (Hin : in_columns fld (make_DataFrame results) = true).
    { apply in_columns_iff. exists r. split; [exact Hr | congruence]. }
    rewrite (Hall fld Hf) in Hin. discriminate.
  - intros Hall fld Hf.
    destruct (in_columns fld (make_DataFrame results)) eqn:Hin; [| reflexivity].
    apply in_columns_iff in Hin. destruct Hin as (r & Hr & Hget).
    now contradiction Hget; apply Hall.
Qed.

Lemma render_without_columns now fs title first rest config execution_date :
  table_fields_of (make_DataFrame (first :: rest)) (report_fields_of config first)
  = [] ->
  generate_pdf_report now fs title (first :: rest) config execution_date
  = mk_render_run (Raise ZeroDivisionError) fs.
Proof.
  intros Hnil. rewrite render_nonempty. cbv zeta. now rewrite Hnil.
Qed.

(** X8: the division of line 401 raises [ZeroDivisionError] exactly
    when no record has any of the fields chosen for the table (the
    configured [report_fields], or else the keys of the first record);
    so a rendering of a non-empty result set that returns a path has
    found at least one of the chosen fields in the data. *)
Theorem zero_division_iff_no_known_field now fs title first rest config
    execution_date :
  let results := first :: rest in
  let chosen := report_fields_of config first in
  (col_widths (length (table_fields_of (make_DataFrame results) chosen))
   = Raise ZeroDivisionError
   <-> forall fld (r : record),
         In fld chosen -> In r results -> dict_get r fld = None)
  /\ (forall path,
        render_result
          (generate_pdf_report now fs title results config execution_date)
        = Return path ->
        exists fld (r : record),
          In fld chosen /\ In r results /\ dict_get r fld <> None).
Proof.
  intros results chosen. split.
  - rewrite <- table_fields_nil_iff, col_widths_cases.
    destruct (table_fields_of (make_DataFrame results) chosen) as [| f l];
      simpl; split; auto; discriminate.
  - intros path Hret.
    destruct (table_fields_of (make_DataFrame results) chosen) as [| fld l]
      eqn:Hfields.
    + subst results chosen.
      rewrite (render_without_columns _ _ _ _ _ _ _ Hfields) in Hret.
      discriminate.
    + assert (Hin : In fld (table_fields_of (make_DataFrame results) chosen))
        by (rewrite Hfields; now left).
      apply table_fields_In in Hin. destruct Hin as (Hf & r & Hr & Hget).
      eauto.
Qed.

(** C9 fails on the code, by the defect of C3: when none of the
    configured report fields is a key of any record, rendering the
    same title, result set, config and date twice raises both times
    (the division of line 401), returns no path and leaves no file to
    overwrite. *)
Theorem render_twice_without_known_fields now fs title results c fields
    execution_date :
  results <> [] ->
  report_fields c = Some fields ->
  (forall fld (r : record), In fld fields -> In r results -> dict_get r fld = None) ->
  let first_run :=
    generate_pdf_report now fs title results (Some c) execution_date in
  let second_run :=
    generate_pdf_report now (render_fs first_run) title results (Some c)
      execution_date in
  (exists e, render_result first_run = Raise e)
  /\ (exists e, render_result second_run = Raise e)
  /\ render_fs first_run = fs
  /\ render_fs second_run = fs.
Proof.
  intros Hne Hfields Hmissing first_run second_run.
  destruct results as [| first rest]; [contradiction |].
  assert (Hchosen : report_fields_of (Some c) first = fields).
  { unfold report_fields_of.
    assert (truthy_config (Some c) = Some c) as ->.
    { unfold truthy_config, config_truthy. rewrite Hfields.
      destruct (report_id c), (description c), (query_params c),
        (summary_fields c); reflexivity. }
    now rewrite Hfields. }
  assert (Hnil : table_fields_of (make_DataFrame (first :: rest))
                   (report_fields_of (Some c) first) = []).
  { apply table_fields_nil_iff. now rewrite Hchosen. }
  subst second_run first_run.
  rewrite !(render_without_columns _ _ _ _ _ _ _ Hnil).
  cbn [render_result render_fs].
  rewrite ?(render_without_columns _ _ _ _ _ _ _ Hnil).
  cbn [render_result render_fs]. repeat split; eauto.
Qed.

(** X9: without configured [report_fields], the table of a rendered
    non-empty report takes the keys of the first record as its columns,
    all of them and in their order, with one row per record under the
    header. *)
Theorem render_default_columns now fs title first rest config execution_date
    path doc :
  (forall c, config = Some c -> report_fields c = None) ->
  render_result
    (generate_pdf_report now fs title (first :: rest) config execution_date)
  = Return path ->
  render_fs
    (generate_pdf_report now fs title (first :: rest) config execution_date)
    !! path = Some doc ->
  exists body,
    detailed_rows doc = Some (map fst first :: body)
    /\ length body = S (length rest).
Proof.
  intros Hnofields Hret Hdoc.
  destruct (render_returns_document _ _ _ _ _ _ _ _ _ Hret Hdoc)
    as (_ & _ & ->).
  assert (Hfields : report_fields_of config first = map fst first).
  { unfold report_fields_of, truthy_config.
    destruct config as [c |]; [| reflexivity].
    destruct (config_truthy c); [| reflexivity].
    now rewrite (Hnofields c eq_refl). }
  assert (Hall : table_fields_of (make_DataFrame (first :: rest)) (map fst first)
                 = map fst first).
  { apply filter_all. intros fld Hfld. unfold in_columns.
    rewrite columns_make_DataFrame. apply mem_str_In, frame_keys_In.
    exists first. split; [now left | exact Hfld]. }
  rewrite Hfields, Hall.
  eexists. split.
  - unfold detailed_rows. cbn [elements]. rewrite last_snoc. reflexivity.
  - rewrite length_map, length_seq. reflexivity.
Qed.

End RendererShape.

Lemma filter_sublist {A} (P : A -> bool) (l : list A) :
  sublist (List.filter P l) l.
Proof.
  induction l as [| a l IH]; simpl; [constructor |].
  destruct (P a); now constructor.
Qed.

Section RendererTable.
Context `{Libraries}.

(** The text of the cell of record [i] in the column of [fld]. *)
Lemma table_cell results fields i j fld (r : record) :
  results !! i = Some r ->
  table_fields_of (make_DataFrame results) fields !! j = Some fld ->
  exists row,
    map (table_row (make_DataFrame results)
           (table_fields_of (make_DataFrame results) fields))
        (seq 0 (length results)) !! i = Some row
    /\ row !! j
       = Some (format_value
                 (row_cell (frame_values_dtype (make_DataFrame results))
                    (infer_series
                       (map (fun r => default (PyFloat NaN) (dict_get r fld))
                          results)) i)).
Proof.
  intros Hi Hj. eexists. split.
  - rewrite lookup_map, lookup_seq_lt; [reflexivity |].
    now apply lookup_lt_Some in Hi.
  - unfold table_row. rewrite lookup_map, Hj. simpl. f_equal. f_equal.
    apply lookup_filter_In in Hj. unfold in_columns in Hj.
    rewrite columns_make_DataFrame in Hj. apply mem_str_In in Hj.
    unfold row_get, make_DataFrame. cbn [df_columns].
    now rewrite (find_column_map
                   (fun k => infer_series
                               (map (fun r => default (PyFloat NaN) (dict_get r k))
                                  results)) _ _ Hj).
Qed.

Lemma text_cell_text dt cells i s :
  cells !! i = Some (PyStr s) ->
  format_value (row_cell dt (infer_series cells) i) = s.
Proof.
  intros Hcell. unfold infer_series.
  pose proof Hcell as Hin. apply list_elem_of_lookup_2, list_elem_of_In in Hin.
  destruct (forallb is_int64 cells) eqn:Hint.
  { rewrite forallb_forall in Hint. apply Hint in Hin. discriminate. }
  destruct (forallb is_number_or_null cells) eqn:Hnum.
  { rewrite forallb_forall in Hnum. apply Hnum in Hin. discriminate. }
  simpl. now rewrite (nth_lookup_Some _ _ _ _ Hcell).
Qed.

(** X10: the Detailed Data table of a rendered non-empty report is
    rectangular: one header row and one row per record, every row with
    as many cells as there are column widths (at least one); the shaded
    rows are exactly the even-numbered rows from row 2 on, so never the
    header. *)
Theorem detailed_table_shape now fs title results config execution_date
    path doc :
  results <> [] ->
  render_result (generate_pdf_report now fs title results config execution_date)
  = Return path ->
  render_fs (generate_pdf_report now fs title results config execution_date)
    !! path = Some doc ->
  exists rows widths shaded,
    last (elements doc) = Some (DataTable rows widths shaded)
    /\ length rows = S (length results)
    /\ widths <> []
    /\ Forall (fun row : list string => length row = length widths) rows
    /\ forall i, In i shaded <-> (2 <= i < length rows)%nat /\ Nat.even i = true.
Proof.
  intros Hne Hret Hdoc. destruct results as [| first rest]; [contradiction |].
  destruct (render_returns_document _ _ _ _ _ _ _ _ _ Hret Hdoc)
    as (Hfields & _ & ->).
  cbn [elements]. rewrite last_snoc.
  eexists _, _, _. split; [reflexivity |].
  set (df := make_DataFrame (first :: rest)) in *.
  set (fields := table_fields_of df (report_fields_of config first)) in *.
  split; [| split; [| split]].
  - unfold table_data. cbn [length]. now rewrite length_map, length_seq.
  - destruct fields; [contradiction | discriminate].
  - rewrite repeat_length. unfold table_data. constructor; [reflexivity |].
    apply List.Forall_forall. intros row Hrow. apply in_map_iff in Hrow.
    destruct Hrow as (i & <- & _). unfold table_row. now rewrite length_map.
  - intros i. unfold zebra. rewrite filter_In, in_seq.
    destruct i as [| [| i]]; simpl; split; intros [Hi He]; try discriminate;
      try lia; split; auto; lia.
Qed.

(** X11: a text value is printed as it is: in a rendered report the
    cell of a record whose value for a table column is a string holds
    exactly that string. *)
Theorem text_value_renders_verbatim now fs title results config execution_date
    path i (r : record) fld s :
  render_result (generate_pdf_report now fs title results config execution_date)
  = Return path ->
  results !! i = Some r ->
  dict_get r fld = Some (PyStr s) ->
  exists doc header body,
    render_fs (generate_pdf_report now fs title results config execution_date)
      !! path = Some doc
    /\ detailed_rows doc = Some (header :: body)
    /\ forall j, header !! j = Some fld ->
         exists row, body !! i = Some row /\ row !! j = Some s.
Proof.
  intros Hret Hi Hget.
  destruct results as [| first rest]; [discriminate |].
  destruct (render_fs (generate_pdf_report now fs title (first :: rest) config
                         execution_date) !! path) as [doc |] eqn:Hdoc.
  2:{ destruct (render_writes_path _ _ _ _ _ _ _ Hret) as [_ [d Hd]].
      rewrite Hd in Hdoc. discriminate. }
  destruct (render_returns_document _ _ _ _ _ _ _ _ _ Hret Hdoc)
    as (_ & _ & ->).
  eexists _, _, _. split; [reflexivity |]. split.
  { unfold detailed_rows. cbn [elements]. rewrite last_snoc. reflexivity. }
  intros j Hj.
  destruct (table_cell _ _ _ _ _ _ Hi Hj) as (row & Hrow & Hcell).
  exists row. split; [exact Hrow |]. rewrite Hcell. f_equal.
  apply text_cell_text. rewrite lookup_map, Hi. simpl. now rewrite Hget.
Qed.

(** X12: the header of the Detailed Data table holds the chosen fields
    (the configured [report_fields], or else the keys of the first
    record) that are a key of at least one record, in the order in
    which they were chosen. *)
Theorem table_header_fields now fs title first rest config execution_date
    path doc :
  render_result
    (generate_pdf_report now fs title (first :: rest) config execution_date)
  = Return path ->
  render_fs
    (generate_pdf_report now fs title (first :: rest) config execution_date)
    !! path = Some doc ->
  exists header body,
    detailed_rows doc = Some (header :: body)
    /\ sublist header (report_fields_of config first)
    /\ forall fld,
         In fld header
         <-> In fld (report_fields_of config first)
             /\ exists r : record, In r (first :: rest) /\ dict_get r fld <> None.
Proof.
  intros Hret Hdoc.
  destruct (render_returns_document _ _ _ _ _ _ _ _ _ Hret Hdoc)
    as (_ & _ & ->).
  eexists _, _. split.
  { unfold detailed_rows. cbn [elements]. rewrite last_snoc. reflexivity. }
  split; [apply filter_sublist |].
  intros fld. apply table_fields_In.
Qed.

End RendererTable.

(** ** ReportRenderer: the summary settings *)

Lemma find_column_Some_In cols fld s :
  find_column cols fld = Some s -> In fld (map fst cols).
Proof.
  induction cols as [| [k s'] cols IH]; simpl; [discriminate |].
  destruct (String.eqb fld k) eqn:Heq.
  - apply String.eqb_eq in Heq. auto.
  - auto.
Qed.

Lemma truthy_config_Some config c :
  truthy_config config = Some c -> config = Some c.
Proof.
  unfold truthy_config. destruct config as [c' |]; [| discriminate].
  destruct (config_truthy c'); [congruence | discriminate].
Qed.

Lemma In_sections {A} (x a b c d : A) (l1 l2 : list A) :
  In x (([a; b] ++ l1 ++ l2 ++ [c]) ++ [d]) ->
  x = a \/ x = b \/ In x l1 \/ In x l2 \/ x = c \/ x = d.
Proof.
  rewrite !in_app_iff. simpl. intuition.
Qed.

Lemma description_elements config x :
  In x (description_section config) ->
  (exists text, x = Paragraph text Normal) \/ x = Spacer 1 12.
Proof.
  unfold description_section.
  destruct (truthy_config config) as [c |]; [| intros []].
  destruct (truthy_str (description c)); simpl; [| intros []].
  intros [<- | [<- | []]]; eauto.
Qed.

Section RendererSummary.
Context `{Libraries}.

Lemma column_has_record results fld s :
  find_column (df_columns (make_DataFrame results)) fld = Some s ->
  exists r : record, In r results /\ dict_get r fld <> None.
Proof.
  intros Hcol. apply find_column_Some_In in Hcol.
  apply in_columns_iff. unfold in_columns. now apply mem_str_In.
Qed.

Lemma summary_value_operation df s op v :
  summary_value df s op = Some v -> In op summary_operations.
Proof.
  unfold summary_value, summary_operations.
  destruct (String.eqb op "sum") eqn:E1;
    [apply String.eqb_eq in E1; subst; simpl; tauto |].
  destruct (String.eqb op "avg") eqn:E2;
    [apply String.eqb_eq in E2; subst; simpl; tauto |].
  destruct (String.eqb op "mean") eqn:E3;
    [apply String.eqb_eq in E3; subst; simpl; tauto |].
  destruct (String.eqb op "count") eqn:E4;
    [apply String.eqb_eq in E4; subst; simpl; tauto |].
  destruct (String.eqb op "min") eqn:E5;
    [apply String.eqb_eq in E5; subst; simpl; tauto |].
  destruct (String.eqb op "max") eqn:E6;
    [apply String.eqb_eq in E6; subst; simpl; tauto |].
  discriminate.
Qed.

Lemma summary_row_origin results sf row :
  summary_row (make_DataFrame results) sf = Some row ->
  exists value,
    row = [label sf; value]
    /\ In (operation sf) summary_operations
    /\ exists r : record, In r results /\ dict_get r (field sf) <> None.
Proof.
  unfold summary_row.
  destruct (find_column _ (field sf)) as [s |] eqn:Hcol; [| discriminate].
  destruct (summary_value _ s (operation sf)) as [v |] eqn:Hval; [| discriminate].
  intros [= <-]. exists v. split; [reflexivity |]. split.
  - eapply summary_value_operation, Hval.
  - eapply column_has_record, Hcol.
Qed.

Lemma layout_of_path config1 config2 d :
  layout_of config1 = layout_of config2 -> pdf_path config1 d = pdf_path config2 d.
Proof.
  unfold layout_of, pdf_path.
  destruct (truthy_config config1), (truthy_config config2);
    intros Heq; apply (f_equal fst) in Heq; simpl in Heq;
    first [rewrite Heq | rewrite <- Heq | idtac]; reflexivity.
Qed.

Lemma layout_of_fields config1 config2 first :
  layout_of config1 = layout_of config2 ->
  report_fields_of config1 first = report_fields_of config2 first.
Proof.
  unfold layout_of, report_fields_of.
  destruct (truthy_config config1), (truthy_config config2);
    intros Heq; apply (f_equal snd) in Heq; simpl in Heq;
    first [rewrite Heq | rewrite <- Heq | idtac]; reflexivity.
Qed.

(** X13: the description and the summary settings do not reach the
    file name nor the Detailed Data table: when two renderings of the
    same result set return, under configs with the same [report_id] and
    [report_fields], they return the same path and their tables have
    the same rows. *)
Theorem table_ignores_summary_settings now fs title results config1 config2
    execution_date path1 path2 doc1 doc2 :
  layout_of config1 = layout_of config2 ->
  render_result (generate_pdf_report now fs title results config1 execution_date)
  = Return path1 ->
  render_result (generate_pdf_report now fs title results config2 execution_date)
  = Return path2 ->
  render_fs (generate_pdf_report now fs title results config1 execution_date)
    !! path1 = Some doc1 ->
  render_fs (generate_pdf_report now fs title results config2 execution_date)
    !! path2 = Some doc2 ->
  path1 = path2 /\ detailed_rows doc1 = detailed_rows doc2.
Proof.
  intros Hlayout.
  pose proof (layout_of_path _ _ (default now execution_date) Hlayout) as Hpath.
  destruct results as [| first rest].
  - simpl. rewrite Hpath. intros [= <-] [= <-]. rewrite !lookup_insert_eq.
    intros [= <-] [= <-]. auto.
  - rewrite !render_nonempty. cbv zeta.
    rewrite (layout_of_fields _ _ first Hlayout), Hpath.
    destruct (col_widths _) as [widths | e]; [| discriminate].
    cbn [render_result render_fs]. intros [= <-] [= <-].
    rewrite !lookup_insert_eq. intros [= <-] [= <-].
    split; [reflexivity |]. unfold detailed_rows. cbn [elements].
    now rewrite !app_comm_cons, !last_snoc.
Qed.

(** X14: a chart is only drawn for a [group] summary field whose field
    is a key of some record: a rendered report without such a field
    holds no image. *)
Theorem chart_only_for_group_fields now fs title results config execution_date
    path doc png :
  render_result (generate_pdf_report now fs title results config execution_date)
  = Return path ->
  render_fs (generate_pdf_report now fs title results config execution_date)
    !! path = Some doc ->
  In (Image png) (elements doc) ->
  exists c sfs sf,
    config = Some c /\ summary_fields c = Some sfs /\ In sf sfs
    /\ operation sf = "group"
    /\ exists r : record, In r results /\ dict_get r (field sf) <> None.
Proof.
  intros Hret Hdoc Himg. destruct results as [| first rest].
  { simpl in Hret, Hdoc. injection Hret as <-.
    rewrite lookup_insert_eq in Hdoc. injection Hdoc as <-.
    simpl in Himg. unfold title_line in Himg. intuition discriminate. }
  destruct (render_returns_document _ _ _ _ _ _ _ _ _ Hret Hdoc)
    as (_ & _ & ->).
  cbn [elements] in Himg. apply In_sections in Himg. unfold title_line in Himg.
  destruct Himg as [Ht | [Hs | [Hd | [Hsum | [Hh | Htab]]]]]; try discriminate.
  { apply description_elements in Hd. destruct Hd as [[t Hd] | Hd]; discriminate. }
  unfold summary_section in Hsum.
  destruct (truthy_config config) as [c |] eqn:Hc; [| destruct Hsum].
  apply truthy_config_Some in Hc.
  destruct (summary_fields c) as [sfs |] eqn:Hsfs; [| destruct Hsum].
  exists c, sfs.
  cbn [app In] in Hsum. rewrite in_app_iff in Hsum.
  destruct Hsum as [Hhead | [Htable | Hcharts]]; [discriminate | |].
  { destruct (summary_data _ sfs); simpl in Htable; intuition discriminate. }
  apply in_concat in Hcharts. destruct Hcharts as (els & Hels & Hin).
  apply in_map_iff in Hels. destruct Hels as (sf & <- & Hsf).
  exists sf. split; [exact Hc |]. split; [exact Hsfs |]. split; [exact Hsf |].
  unfold chart_elements in Hin.
  destruct (String.eqb (operation sf) "group") eqn:Hop; [| destruct Hin].
  apply String.eqb_eq in Hop. split; [exact Hop |].
  destruct (find_column _ (field sf)) as [s |] eqn:Hcol; [| destruct Hin].
  eapply column_has_record, Hcol.
Qed.

(** X15: the summary table is never empty, and each of its rows is the
    label of a configured summary field followed by one value, for a
    field that is a key of some record and an operation among sum, avg,
    mean, count, min and max: group fields, unknown operations and
    unknown fields leave no row. *)
Theorem summary_table_rows now fs title results config execution_date
    path doc rows :
  render_result (generate_pdf_report now fs title results config execution_date)
  = Return path ->
  render_fs (generate_pdf_report now fs title results config execution_date)
    !! path = Some doc ->
  In (SummaryTable rows) (elements doc) ->
  exists c sfs,
    config = Some c /\ summary_fields c = Some sfs
    /\ rows <> []
    /\ forall row, In row rows ->
         exists sf value,
           In sf sfs /\ row = [label sf; value]
           /\ In (operation sf) summary_operations
           /\ exists r : record, In r results /\ dict_get r (field sf) <> None.
Proof.
  intros Hret Hdoc Htab. destruct results as [| first rest].
  { simpl in Hret, Hdoc. injection Hret as <-.
    rewrite lookup_insert_eq in Hdoc. injection Hdoc as <-.
    simpl in Htab. unfold title_line in Htab. intuition discriminate. }
  destruct (render_returns_document _ _ _ _ _ _ _ _ _ Hret Hdoc)
    as (_ & _ & ->).
  cbn [elements] in Htab. apply In_sections in Htab. unfold title_line in Htab.
  destruct Htab as [Ht | [Hs | [Hd | [Hsum | [Hh | Hlast]]]]]; try discriminate.
  { apply description_elements in Hd. destruct Hd as [[t Hd] | Hd]; discriminate. }
  unfold summary_section in Hsum.
  destruct (truthy_config config) as [c |] eqn:Hc; [| destruct Hsum].
  apply truthy_config_Some in Hc.
  destruct (summary_fields c) as [sfs |] eqn:Hsfs; [| destruct Hsum].
  exists c, sfs. split; [exact Hc |]. split; [exact Hsfs |].
  cbn [app In] in Hsum. rewrite in_app_iff in Hsum.
  destruct Hsum as [Hhead | [Htable | Hcharts]]; [discriminate | |].
  - destruct (summary_data _ sfs) as [| row0 rows0] eqn:Hdata;
      [destruct Htable |].
    simpl in Htable. destruct Htable as [[= <-] | [Hsp | []]]; [| discriminate].
    split; [discriminate |].
    intros row Hrow. rewrite <- Hdata in Hrow. unfold summary_data in Hrow.
    apply list_elem_of_In, list_elem_of_omap in Hrow.
    destruct Hrow as (sf & Hsf & Hsome). apply list_elem_of_In in Hsf.
    destruct (summary_row_origin _ _ _ Hsome) as (value & -> & Hop & Hrec).
    exists sf, value. auto.
  - apply in_concat in Hcharts. destruct Hcharts as (els & Hels & Hin).
    apply in_map_iff in Hels. destruct Hels as (sf & <- & _).
    unfold chart_elements in Hin.
    destruct (String.eqb _ _); [| destruct Hin].
    destruct (find_column _ _); [| destruct Hin].
    destruct (plot_bar _ _ _); simpl in Hin; intuition discriminate.
Qed.

End RendererSummary.

Lemma render_default_columns_witness :
  exists doc,
    render_fs
      (generate_pdf_report (H := sample_libraries) sample_date ∅ "Orders"
         uneven_orders None None)
      !! "/tmp/report_20261104.pdf" = Some doc
    /\ exists body,
         detailed_rows doc = Some (["id"; "qty"] :: body)
         /\ length body = 2%nat.
Proof.
  eexists. split; [vm_compute; reflexivity |].
  apply (@render_default_columns sample_libraries sample_date ∅ "Orders"
           [("id", PyStr "A1"); ("qty", PyInt 5)] [[("id", PyStr "B2")]]
           None None "/tmp/report_20261104.pdf").
  - discriminate.
  - reflexivity.
  - vm_compute; reflexivity.
Defined.

Lemma render_twice_without_known_fields_witness :
  let first_run :=
    generate_pdf_report (H := sample_libraries) sample_date ∅ "Orders"
      [sample_order 1] (Some (sample_config (Some ["Total"]) None)) None in
  let second_run :=
    generate_pdf_report (H := sample_libraries) sample_date
      (render_fs first_run) "Orders"
      [sample_order 1] (Some (sample_config (Some ["Total"]) None)) None in
  (exists e, render_result first_run = Raise e)
  /\ (exists e, render_result second_run = Raise e)
  /\ render_fs first_run = ∅
  /\ render_fs second_run = ∅.
Proof.
  apply (@render_twice_without_known_fields sample_libraries sample_date ∅
           "Orders" [sample_order 1] (sample_config (Some ["Total"]) None)
           ["Total"] None).
  - discriminate.
  - reflexivity.
  - intros fld r [<- | []] [<- | []]. reflexivity.
Defined.

Lemma detailed_table_shape_witness :
  exists doc,
    render_fs
      (generate_pdf_report (H := sample_libraries) sample_date ∅ "Orders"
         uneven_orders None None)
      !! "/tmp/report_20261104.pdf" = Some doc
    /\ exists rows widths shaded,
         last (elements doc) = Some (DataTable rows widths shaded)
         /\ length rows = 3%nat
         /\ widths <> []
         /\ Forall (fun row : list string => length row = length widths) rows
         /\ forall i, In i shaded <-> (2 <= i < length rows)%nat /\ Nat.even i = true.
Proof.
  eexists. split; [vm_compute; reflexivity |].
  apply (@detailed_table_shape sample_libraries sample_date ∅ "Orders"
           uneven_orders None None "/tmp/report_20261104.pdf").
  - discriminate.
  - reflexivity.
  - vm_compute; reflexivity.
Defined.

Lemma text_value_renders_verbatim_witness :
  exists doc header body,
    render_fs
      (generate_pdf_report (H := sample_libraries) sample_date ∅ "Orders"
         uneven_orders None None)
      !! "/tmp/report_20261104.pdf" = Some doc
    /\ detailed_rows doc = Some (header :: body)
    /\ forall j, header !! j = Some "id" ->
         exists row, body !! 1%nat = Some row /\ row !! j = Some "B2".
Proof.
  apply (@text_value_renders_verbatim sample_libraries sample_date ∅ "Orders"
           uneven_orders None None "/tmp/report_20261104.pdf" 1%nat
           [("id", PyStr "B2")] "id" "B2").
  - reflexivity.
  - reflexivity.
  - reflexivity.
Defined.

Lemma table_header_fields_witness :
  exists doc,
    render_fs
      (generate_pdf_report (H := sample_libraries) sample_date ∅ "Orders"
         uneven_orders (Some (sample_config (Some ["qty"; "total"; "id"]) None))
         None)
      !! "/tmp/daily_20261104.pdf" = Some doc
    /\ exists header body,
         detailed_rows doc = Some (header :: body)
         /\ sublist header ["qty"; "total"; "id"]
         /\ forall fld,
              In fld header
              <-> In fld ["qty"; "total"; "id"]
                  /\ exists r : record, In r uneven_orders /\ dict_get r fld <> None.
Proof.
  eexists. split; [vm_compute; reflexivity |].
  apply (@table_header_fields sample_libraries sample_date ∅ "Orders"
           [("id", PyStr "A1"); ("qty", PyInt 5)] [[("id", PyStr "B2")]]
           (Some (sample_config (Some ["qty"; "total"; "id"]) None)) None
           "/tmp/daily_20261104.pdf").
  - reflexivity.
  - vm_compute; reflexivity.
Defined.

Lemma table_ignores_summary_settings_witness :
  exists doc1 doc2,
    render_fs
      (generate_pdf_report (H := sample_libraries) sample_date ∅ "Orders"
         int_amounts (Some (sample_config None None)) None)
      !! "/tmp/daily_20261104.pdf" = Some doc1
    /\ render_fs
         (generate_pdf_report (H := sample_libraries) sample_date ∅ "Orders"
            int_amounts (Some (sample_config None (Some sample_summary))) None)
         !! "/tmp/daily_20261104.pdf" = Some doc2
    /\ "/tmp/daily_20261104.pdf" = "/tmp/daily_20261104.pdf"
    /\ detailed_rows doc1 = detailed_rows doc2.
Proof.
  eexists _, _. split; [vm_compute; reflexivity |].
  split; [vm_compute; reflexivity |].
  apply (@table_ignores_summary_settings sample_libraries sample_date ∅
           "Orders" int_amounts (Some (sample_config None None))
           (Some (sample_config None (Some sample_summary))) None
           "/tmp/daily_20261104.pdf" "/tmp/daily_20261104.pdf").
  - reflexivity.
  - reflexivity.
  - reflexivity.
  - vm_compute; reflexivity.
  - vm_compute; reflexivity.
Defined.

Lemma chart_only_for_group_fields_witness :
  exists c sfs sf,
    Some (sample_config None (Some sample_summary)) = Some c
    /\ summary_fields c = Some sfs /\ In sf sfs
    /\ operation sf = "group"
    /\ exists r : record, In r int_amounts /\ dict_get r (field sf) <> None.
Proof.
  eapply (@chart_only_for_group_fields sample_plotting sample_date ∅ "Orders"
            int_amounts (Some (sample_config None (Some sample_summary))) None
            "/tmp/daily_20261104.pdf" _ "PNG").
  - reflexivity.
  - vm_compute; reflexivity.
  - vm_compute. do 7 right. left. reflexivity.
Defined.

Lemma summary_table_rows_witness :
  exists c sfs,
    Some (sample_config None (Some sample_summary)) = Some c
    /\ summary_fields c = Some sfs
    /\ [["Total"; "60"]] <> []
    /\ forall row, In row [["Total"; "60"]] ->
         exists sf value,
           In sf sfs /\ row = [label sf; value]
           /\ In (operation sf) summary_operations
           /\ exists r : record, In r int_amounts /\ dict_get r (field sf) <> None.
Proof.
  eapply (@summary_table_rows sample_plotting sample_date ∅ "Orders"
            int_amounts (Some (sample_config None (Some sample_summary))) None
            "/tmp/daily_20261104.pdf" _ [["Total"; "60"]]).
  - reflexivity.
  - vm_compute; reflexivity.
  - vm_compute. do 3 right. left. reflexivity.
Defined.

(** ** ReportRenderer: the file name *)

Lemma year_digits y :
  (1000 <= y <= 9999)%N -> digits_of_N y = decimal 4 y.
Proof.
  intros Hy. apply String.eqb_eq.
  pose proof (check_below
                (fun n => (n <? 1000)%N
                          || String.eqb (digits_of_N n) (decimal 4 n))
                (N.to_nat 10000)) as Hcheck.
  specialize (Hcheck ltac:(vm_compute; reflexivity) y
                ltac:(rewrite N2Nat.id; lia)).
  apply orb_true_iff in Hcheck. destruct Hcheck as [Hlt | Heq]; [| exact Heq].
  apply N.ltb_lt in Hlt. lia.
Qed.

Lemma two_digits m :
  (m < 100)%N -> zero_pad 2 (digits_of_N m) = decimal 2 m.
Proof.
  intros Hm. apply String.eqb_eq.
  apply (check_below
           (fun n => String.eqb (zero_pad 2 (digits_of_N n)) (decimal 2 n)) 100);
    [vm_compute; reflexivity | lia].
Qed.

Lemma valid_date_bounds d :
  valid_date d = true ->
  (1 <= year d <= 9999 /\ 1 <= month d <= 12 /\ 1 <= day d <= 31)%N.
Proof.
  unfold valid_date. rewrite !andb_true_iff, !N.leb_le.
  intros (((((Hy1 & Hy2) & Hm1) & Hm2) & Hd1) & Hd2).
  assert (days_in_month (year d) (month d) <= 31)%N.
  { unfold days_in_month.
    destruct (month d =? 2)%N; [destruct (leap_year (year d)); lia |].
    destruct ((month d =? 4) || (month d =? 6) || (month d =? 9)
              || (month d =? 11))%N; lia. }
  lia.
Qed.

Lemma strftime_compact_digits d :
  valid_date d = true -> (1000 <= year d)%N ->
  strftime_compact d
  = decimal 4 (year d) +:+ decimal 2 (month d) +:+ decimal 2 (day d).
Proof.
  intros Hvalid Hy. apply valid_date_bounds in Hvalid.
  unfold strftime_compact.
  rewrite year_digits, !two_digits by lia. reflexivity.
Qed.

Lemma strftime_dashed_digits d :
  valid_date d = true -> (1000 <= year d)%N ->
  strftime_dashed d
  = decimal 4 (year d) +:+ "-" +:+ decimal 2 (month d) +:+ "-"
    +:+ decimal 2 (day d).
Proof.
  intros Hvalid Hy. apply valid_date_bounds in Hvalid.
  unfold strftime_dashed.
  rewrite year_digits, !two_digits by lia. reflexivity.
Qed.

Section RendererPath.
Context `{Libraries}.

(** X16: a rendering that returns, for a date from the year 1000 on,
    returns [/tmp/{report_id}_{YYYYMMDD}.pdf]: report_id is "report"
    when the config is absent or has none, YYYY, MM and DD are the four
    digits of the year and the two digits of the month and of the day
    of [execution_date], or of the clock when it is absent.  The new
    document is the file at that path, and it opens with the title
    followed by the same date as YYYY-MM-DD. *)
Theorem rendered_path_format now fs title results config execution_date p :
  let d := default now execution_date in
  let rid := match config with
             | Some c => default "report" (report_id c)
             | None => "report"
             end in
  valid_date d = true ->
  (1000 <= year d)%N ->
  render_result (generate_pdf_report now fs title results config execution_date)
  = Return p ->
  p = "/tmp/" +:+ rid +:+ "_" +:+ decimal 4 (year d) +:+ decimal 2 (month d)
      +:+ decimal 2 (day d) +:+ ".pdf"
  /\ exists doc,
       render_fs (generate_pdf_report now fs title results config execution_date)
         !! p = Some doc
       /\ head (elements doc)
          = Some (Paragraph
                    (title +:+ " - " +:+ decimal 4 (year d) +:+ "-"
                     +:+ decimal 2 (month d) +:+ "-" +:+ decimal 2 (day d))
                    Title).
Proof.
  intros d rid Hvalid Hyear Hret.
  assert (Hp : p = pdf_path config d).
  { now destruct (render_writes_path _ _ _ _ _ _ _ Hret). }
  split.
  { rewrite Hp, pdf_path_explicit, (strftime_compact_digits d Hvalid Hyear).
    reflexivity. }
  destruct results as [| first rest].
  - simpl in Hret |- *. injection Hret as <-. rewrite lookup_insert_eq.
    eexists. split; [reflexivity |]. simpl. unfold title_line. fold d.
    now rewrite (strftime_dashed_digits d Hvalid Hyear).
  - destruct (render_writes_path _ _ _ _ _ _ _ Hret) as [_ [doc Hdoc]].
    exists doc. split; [exact Hdoc |].
    destruct (render_returns_document _ _ _ _ _ _ _ _ _ Hret Hdoc)
      as (_ & _ & ->).
    simpl. unfold title_line. fold d.
    now rewrite (strftime_dashed_digits d Hvalid Hyear).
Qed.

End RendererPath.

Lemma rendered_path_format_witness :
  "/tmp/daily_20261104.pdf" = "/tmp/daily_20261104.pdf"
  /\ exists doc,
       render_fs
         (generate_pdf_report (H := sample_libraries) sample_date ∅ "Orders"
            int_amounts (Some (sample_config None None)) None)
         !! "/tmp/daily_20261104.pdf" = Some doc
       /\ head (elements doc) = Some (Paragraph "Orders - 2026-11-04" Title).
Proof.
  apply (@rendered_path_format sample_libraries sample_date ∅ "Orders"
           int_amounts (Some (sample_config None None)) None
           "/tmp/daily_20261104.pdf").
  - reflexivity.
  - vm_compute. discriminate.
  - reflexivity.
Defined.
